(** * Retail replenishment agent: forecast, stock policy and backtest

    A shallow embedding of [retail_agent.py] and the properties of its
    policy ([RetailDecisionAgent]) and of its day-by-day simulator
    ([run_validation]).

    Numbers.  The program computes with Python floats.  Most of its
    properties do not depend on how a result is rounded: they are stated on
    the arithmetic the program denotes, with floats read as real numbers
    ([R]) and sums, products, quotients and square roots exact.  Python ints
    (days, the review period, the window size, ordered quantities, counters)
    are [Z].  The keys and values of the service-level table are decimal
    literals and are kept as rationals ([Q]), which makes the table lookup
    and the constructor computable; a value of the table enters the real
    arithmetic through [Q2R].

    The recommended quantity is the exception: it rounds a computed
    difference up to a whole number, and one unit of the result can hang on
    the last bit of that difference.  Module [B64] therefore embeds
    [recommend] a second time, on IEEE 754 binary64 floats, and the
    statement about the quantity is proved there. *)

From Stdlib Require Import Reals QArith Qreals ZArith List Bool String Ascii.
From Stdlib Require Import DecimalString Lra Lia.
From Stdlib Require Floats Qround Qpower.
Import ListNotations.

Open Scope R_scope.

(** ** Exceptions

    The program raises [ValueError] in the constructor; a lookup of a missing
    dictionary key raises [KeyError]. *)

Inductive exn : Type :=
| ValueError (msg : string)
| KeyError.

Inductive result (A : Type) : Type :=
| Ok (a : A)
| Raise (e : exn).

Arguments Ok {A} a.
Arguments Raise {A} e.

Definition bind {A B : Type} (r : result A) (k : A -> result B) : result B :=
  match r with
  | Ok a => k a
  | Raise e => Raise e
  end.

Notation "x <- r ;; k" := (bind r (fun x => k))
  (at level 61, r at next level, right associativity).

(** A [for] loop whose body may raise: the first exception ends the loop. *)
Fixpoint for_each {S A : Type} (body : S -> A -> result S) (xs : list A) (s : S)
  : result S :=
  match xs with
  | [] => Ok s
  | x :: xs' => s' <- body s x ;; for_each body xs' s'
  end.

(** ** Python built-ins used by the program *)

(** [sum] over a list of floats and over a list of ints. *)
Definition sum (xs : list R) : R := fold_left Rplus xs 0.
Definition sum_int (xs : list Z) : Z := fold_left Z.add xs 0%Z.

(** [len]. *)
Definition len {A : Type} (xs : list A) : Z := Z.of_nat (List.length xs).

(** [xs[start:]]: a negative [start] counts from the end, and both ends are
    clipped to the list. *)
Definition slice_from {A : Type} (start : Z) (xs : list A) : list A :=
  if (start <? 0)%Z
  then skipn (Z.to_nat (Z.max 0 (len xs + start))) xs
  else skipn (Z.to_nat start) xs.

(** [xs[:stop]], with the same treatment of a negative [stop]. *)
Definition slice_to {A : Type} (stop : Z) (xs : list A) : list A :=
  if (stop <? 0)%Z
  then firstn (Z.to_nat (Z.max 0 (len xs + stop))) xs
  else firstn (Z.to_nat stop) xs.

(** [range(a, b)]. *)
Definition range (a b : Z) : list Z :=
  map (fun i => (a + Z.of_nat i)%Z) (seq 0 (Z.to_nat (b - a))).

(** [statistics.mean]: the arithmetic mean (of a non-empty list). *)
Definition mean (xs : list R) : R := sum xs / IZR (len xs).

(** [statistics.pstdev]: the population standard deviation, the square root
    of the mean squared deviation from the mean. *)
Definition pstdev (xs : list R) : R :=
  let mu := mean xs in
  sqrt (sum (map (fun x => (x - mu) * (x - mu)) xs) / IZR (len xs)).

(** [sorted] on rationals (insertion sort; stable). *)
Fixpoint insert_sorted (q : Q) (qs : list Q) : list Q :=
  match qs with
  | [] => [q]
  | h :: t => if Qle_bool q h then q :: h :: t else h :: insert_sorted q t
  end.

Definition sorted (qs : list Q) : list Q := fold_right insert_sorted [] qs.

(** [str] of a float that is a whole number of hundredths, which is what the
    keys of the table are: the integer part, a point, and the decimals
    without a trailing zero ([0.8], [0.85], [1.0]). *)
Definition decimal (n : Z) : string :=
  NilZero.string_of_uint (N.to_uint (Z.to_N n)).

Definition str (q : Q) : string :=
  let h := (Qnum q * 100 / Zpos (Qden q))%Z in
  let a := Z.abs h in
  let tenths := (a mod 100 / 10)%Z in
  let hundredths := (a mod 10)%Z in
  ((if (h <? 0)%Z then "-" else "")
   ++ decimal (a / 100) ++ "." ++ decimal tenths
   ++ (if (hundredths =? 0)%Z then "" else decimal hundredths))%string.

(** ** The service-level table *)

Definition SERVICE_Z : list (Q * Q) :=
  [ (0.80, 0.84); (0.85, 1.04); (0.90, 1.28);
    (0.95, 1.65); (0.97, 1.88); (0.99, 2.33) ]%Q.

Definition keys (d : list (Q * Q)) : list Q := map fst d.

(** [k in d]. *)
Definition contains (d : list (Q * Q)) (k : Q) : bool :=
  existsb (Qeq_bool k) (keys d).

(** [d[k]]. *)
Fixpoint getitem (d : list (Q * Q)) (k : Q) : result Q :=
  match d with
  | [] => Raise KeyError
  | (k', v) :: d' => if Qeq_bool k k' then Ok v else getitem d' k
  end.

(** ** The decision record and the agent *)

Record ReplenishmentDecision : Type := {
  forecast_demand : R;
  demand_std : R;
  estimated_lead_time_days : R;
  safety_stock : R;
  reorder_point : R;
  target_stock : R;
  recommended_order_qty : Z
}.

Record RetailDecisionAgent : Type := {
  service_level : Q;
  review_period_days : Z;
  alpha : R;
  demand_window : Z
}.

(** [RetailDecisionAgent.__init__]. *)
Definition init (service_level : Q) (review_period_days : Z) (alpha : R)
    (demand_window : Z) : result RetailDecisionAgent :=
  if negb (contains SERVICE_Z service_level)
  then
    let valid := String.concat ", " (map str (sorted (keys SERVICE_Z))) in
    Raise (ValueError ("service_level inválido. Use um de: " ++ valid))
  else
    Ok {| service_level := service_level;
          review_period_days := review_period_days;
          alpha := alpha;
          demand_window := demand_window |}.


(** [RetailDecisionAgent._exp_smoothing_forecast]. *)
Definition _exp_smoothing_forecast (self : RetailDecisionAgent)
    (history : list R) : R :=
  match history with
  | [] => 0
  | first :: rest =>
      let level :=
        fold_left (fun level value => alpha self * value + (1 - alpha self) * level)
                  rest first in
      Rmax 0 level
  end.

(** [RetailDecisionAgent._recent_std]. *)
Definition _recent_std (history : list R) : R :=
  if (len history <? 2)%Z then 0 else pstdev history.

(** [RetailDecisionAgent.recommend].  [lead_time_history] is [None] when the
    argument is left out; [None] and the empty list are both falsy, so
    [lead_time_history or [7.0]] replaces both. *)
Definition recommend (self : RetailDecisionAgent) (demand_history : list R)
    (inventory_on_hand inventory_on_order : R)
    (lead_time_history : option (list R)) : result ReplenishmentDecision :=
  let recent :=
    match demand_history with
    | [] => []
    | _ => slice_from (- demand_window self) demand_history
    end in
  let forecast_daily := _exp_smoothing_forecast self recent in
  let demand_std := _recent_std recent in
  let lead_hist :=
    match lead_time_history with
    | None | Some [] => [7]
    | Some observed => observed
    end in
  let lead_time := Rmax 1 (mean lead_hist) in
  z <- getitem SERVICE_Z (service_level self) ;;
  let safety_stock := Q2R z * demand_std * sqrt lead_time in
  let reorder_point := forecast_daily * lead_time + safety_stock in
  let protection_days := lead_time + IZR (review_period_days self) in
  let target_stock := forecast_daily * protection_days + safety_stock in
  let net_stock := inventory_on_hand + inventory_on_order in
  let recommended := Rmax 0 (target_stock - net_stock) in
  Ok {| forecast_demand := forecast_daily;
        demand_std := demand_std;
        estimated_lead_time_days := lead_time;
        safety_stock := safety_stock;
        reorder_point := reorder_point;
        target_stock := target_stock;
        recommended_order_qty := Zceil recommended |}.

(** ** The simulator

    The local variables of [run_validation] that the loop updates. *)

Record SimState : Type := {
  inventory : R;
  pipeline : list (Z * Z);          (* (arrival_day, qty) *)
  stockout_days : Z;
  total_shortage : R;
  total_holding : R;
  placed_orders : Z
}.

Record Metrics : Type := {
  periods : Z;
  stockout_rate : R;
  avg_ending_inventory : R;
  total_shortage_units : R;
  orders_placed : Z
}.

(** The quantities arriving on [day], and what stays in transit. *)
Definition arrivals_on (day : Z) (pl : list (Z * Z)) : list Z :=
  map snd (filter (fun e => (fst e =? day)%Z) pl).

Definition in_transit (day : Z) (pl : list (Z * Z)) : list (Z * Z) :=
  filter (fun e => negb (fst e =? day)%Z) pl.

Definition on_order_of (pl : list (Z * Z)) : Z := sum_int (map snd pl).

(** Step 1 of a day: the arrivals. *)
Definition receive (day : Z) (st : SimState) : SimState :=
  let arrivals := arrivals_on day (pipeline st) in
  {| inventory :=
       match arrivals with
       | [] => inventory st
       | _ => inventory st + IZR (sum_int arrivals)
       end;
     pipeline := in_transit day (pipeline st);
     stockout_days := stockout_days st;
     total_shortage := total_shortage st;
     total_holding := total_holding st;
     placed_orders := placed_orders st |}.

(** [pipeline.append((arrival, qty))] and [placed_orders += 1]. *)
Definition place_order (arrival qty : Z) (st : SimState) : SimState :=
  {| inventory := inventory st;
     pipeline := pipeline st ++ [(arrival, qty)];
     stockout_days := stockout_days st;
     total_shortage := total_shortage st;
     total_holding := total_holding st;
     placed_orders := (placed_orders st + 1)%Z |}.

(** Steps 2 and 3: the decision and the reorder check. *)
Definition reorder (agent : RetailDecisionAgent) (demand : list R)
    (lead_time_days : Z) (day : Z) (st : SimState) : result SimState :=
  let history := slice_to day demand in
  let on_order := on_order_of (pipeline st) in
  decision <- recommend agent history (inventory st) (IZR on_order)
                        (Some [IZR lead_time_days]) ;;
  if Rle_dec (inventory st + IZR on_order) (reorder_point decision)
  then
    let qty := recommended_order_qty decision in
    if (qty >? 0)%Z
    then Ok (place_order (day + lead_time_days) qty st)
    else Ok st
  else Ok st.

(** Step 4: the demand of the day.  [day] comes from [range(start, len(demand))],
    so [demand[day]] is always inside the list. *)
Definition consume (demand : list R) (day : Z) (st : SimState) : SimState :=
  let today_demand := nth (Z.to_nat day) demand 0 in
  if Rge_dec (inventory st) today_demand
  then {| inventory := inventory st - today_demand;
          pipeline := pipeline st;
          stockout_days := stockout_days st;
          total_shortage := total_shortage st;
          total_holding := total_holding st;
          placed_orders := placed_orders st |}
  else
    let shortage := today_demand - inventory st in
    {| inventory := 0;
       pipeline := pipeline st;
       stockout_days := (stockout_days st + 1)%Z;
       total_shortage := total_shortage st + shortage;
       total_holding := total_holding st;
       placed_orders := placed_orders st |}.

(** Step 5: the holding total. *)
Definition accrue (st : SimState) : SimState :=
  {| inventory := inventory st;
     pipeline := pipeline st;
     stockout_days := stockout_days st;
     total_shortage := total_shortage st;
     total_holding := total_holding st + inventory st;
     placed_orders := placed_orders st |}.

(** The body of the loop. *)
Definition simulate_day (agent : RetailDecisionAgent) (demand : list R)
    (lead_time_days : Z) (st : SimState) (day : Z) : result SimState :=
  st' <- reorder agent demand lead_time_days day (receive day st) ;;
  Ok (accrue (consume demand day st')).

Definition initial_state (initial_inventory : R) : SimState :=
  {| inventory := initial_inventory;
     pipeline := [];
     stockout_days := 0;
     total_shortage := 0;
     total_holding := 0;
     placed_orders := 0 |}.

Definition start_day (demand : list R) : Z :=
  Z.max 30 (Z.min 45 (len demand / 3)).

(** [run_validation]. *)
Definition run_validation (demand : list R) (agent : RetailDecisionAgent)
    (initial_inventory : R) (lead_time_days : Z) : result Metrics :=
  let start := start_day demand in
  final <- for_each (simulate_day agent demand lead_time_days)
                    (range start (len demand))
                    (initial_state initial_inventory) ;;
  let periods := (len demand - start)%Z in
  Ok {| periods := periods;
        stockout_rate :=
          if (periods =? 0)%Z then 0
          else IZR (stockout_days final) / IZR periods;
        avg_ending_inventory :=
          if (periods =? 0)%Z then 0
          else total_holding final / IZR periods;
        total_shortage_units := total_shortage final;
        orders_placed := placed_orders final |}.

(** The state of the loop when it reaches [day], that is after the days
    [start .. day-1]; at [day = len demand] it is the state the loop ends
    in. *)
Definition state_before (day : Z) (demand : list R)
    (agent : RetailDecisionAgent) (initial_inventory : R)
    (lead_time_days : Z) : result SimState :=
  for_each (simulate_day agent demand lead_time_days)
           (range (start_day demand) day)
           (initial_state initial_inventory).

(** ** Vocabulary of the statements *)

(** [sl] is one of the keys of the table. *)
Definition is_key (sl : Q) : Prop :=
  exists k z, In (k, z) SERVICE_Z /\ (sl == k)%Q.

(** The text of the [ValueError] of the constructor. *)
Definition invalid_level_message : string :=
  "service_level inválido. Use um de: 0.8, 0.85, 0.9, 0.95, 0.97, 0.99".

(** The arithmetic mean, as the specification words it: the total of the
    observations divided by their number. *)
Definition arithmetic_mean (xs : list R) : R :=
  fold_right Rplus 0 xs / INR (List.length xs).

(** The agent the constructor builds from its default arguments. *)
Definition default_agent : RetailDecisionAgent :=
  {| service_level := 0.95%Q; review_period_days := 7;
     alpha := 0.35; demand_window := 28 |}.

(** Every quantity in transit is a positive number of units. *)
Definition positive_orders (pl : list (Z * Z)) : Prop :=
  Forall (fun e => (0 < snd e)%Z) pl.

(** What the day's reorder check did to the state [st]: nothing, or one
    order of [q > 0] units due on [arrival]. *)
Definition reordered (arrival : Z) (st st' : SimState) : Prop :=
  st' = st \/ exists q, (0 < q)%Z /\ st' = place_order arrival q st.

(** The stock on hand and the holding total are not negative, and the orders
    in transit are positive. *)
Definition stock_ok (st : SimState) : Prop :=
  0 <= inventory st /\ 0 <= total_holding st /\ positive_orders (pipeline st).

(** Every entry in transit was due before [day]. *)
Definition all_overdue (day : Z) (pl : list (Z * Z)) : Prop :=
  forall e, In e pl -> (fst e < day)%Z.

(** Every entry in transit is due on one of the [L] days from [day] on, and
    no two entries are due on the same day. *)
Definition due_within (day L : Z) (pl : list (Z * Z)) : Prop :=
  (forall e, In e pl -> (day <= fst e < day + L)%Z) /\ NoDup (map fst pl).

(** No entry in transit is due on [day]. *)
Definition none_due (day : Z) (pl : list (Z * Z)) : Prop :=
  forall e, In e pl -> fst e <> day.

(** In the run of [run_validation] on these arguments, every order placed on
    a day [d] is delivered after the lead time: it is an entry due on
    [d + lead_time_days]; on each later simulated day before the due day it
    stays in transit through the arrivals; on the due day it is the day's
    arrival, its quantity is added to the stock on hand, and no entry due
    that day is left in transit; on the days after, no entry due on
    [d + lead_time_days] is in transit any more. *)
Definition delivered_after_lead_time (demand : list R)
    (agent : RetailDecisionAgent) (initial_inventory : R)
    (lead_time_days : Z) : Prop :=
  forall d st ordered,
    (start_day demand <= d < len demand)%Z ->
    state_before d demand agent initial_inventory lead_time_days = Ok st ->
    reorder agent demand lead_time_days d (receive d st) = Ok ordered ->
    placed_orders ordered = (placed_orders st + 1)%Z ->
    exists q,
      (0 < q)%Z /\
      ordered = place_order (d + lead_time_days) q (receive d st) /\
      forall d', (d < d' < len demand)%Z ->
        exists st',
          state_before d' demand agent initial_inventory lead_time_days
            = Ok st' /\
          ((d' < d + lead_time_days)%Z ->
           In ((d + lead_time_days)%Z, q) (pipeline (receive d' st'))) /\
          (d' = (d + lead_time_days)%Z ->
           arrivals_on d' (pipeline st') = [q] /\
           inventory (receive d' st') = inventory st' + IZR q /\
           none_due (d + lead_time_days) (pipeline (receive d' st'))) /\
          ((d + lead_time_days < d')%Z ->
           none_due (d + lead_time_days) (pipeline st')).

(** [generate_synthetic_demand].  [gauss seed d] stands for the value that
    [random.gauss(0, 3.2)] returns in iteration [d] of the loop, after
    [random.seed(seed)]. *)
Definition generate_synthetic_demand (gauss : Z -> Z -> R) (days seed : Z)
  : list R :=
  let base := 22 in
  map (fun d =>
         let weekly := 4.5 * sin (2 * PI * IZR d / 7) in
         let trend := 0.02 * IZR d in
         let noise := gauss seed d in
         Rmax 0 (base + weekly + trend + noise))
      (range 0 days).

(** The smoothed level before it is clamped at zero. *)
Definition smoothed_level (a : R) (first : R) (rest : list R) : R :=
  fold_left (fun level value => a * value + (1 - a) * level) rest first.

(** The demand of a simulated day, [demand[day]]. *)
Definition demand_on (demand : list R) (day : Z) : R :=
  nth (Z.to_nat day) demand 0.

(** What the loop has counted when it reaches [day]. *)
Definition counters_ok (start day : Z) (st : SimState) : Prop :=
  (0 <= stockout_days st <= day - start)%Z /\
  (0 <= placed_orders st <= day - start)%Z /\
  0 <= total_shortage st /\
  ((stockout_days st = 0)%Z -> total_shortage st = 0) /\
  ((0 < stockout_days st)%Z -> 0 < total_shortage st).

(** ** The decision in binary64

    The recommended quantity rounds a difference of floats up to a whole
    number, and there the rounding of the difference decides the result.
    This module reads [recommend] and what it calls with Python's floats as
    they are, IEEE 754 binary64 values ([float], with the operations of the
    processor: each result is the exact one rounded to the nearest float,
    ties to even).  The arguments are floats, as the annotations of the
    source say; [review_period_days] and [demand_window] are ints. *)

Set Warnings "-inexact-float".

Module B64.
Import Floats Qround.
Local Open Scope float_scope.

(** What [recommend] can raise: a missing key, an int too large for a float
    or an infinite float given to [math.ceil], a NaN given to [math.ceil]. *)
Inductive exn : Type :=
| KeyError
| OverflowError
| ValueError.

Inductive result (A : Type) : Type :=
| Ok (a : A)
| Raise (e : exn).

Arguments Ok {A} a.
Arguments Raise {A} e.

(** [max(a, b)] on two floats: the first argument stays unless the second
    compares greater (so a NaN in second place is dropped). *)
Definition float_max (a b : float) : float := if a <? b then b else a.

(** The number a finite float stands for. *)
Definition SF2Q (x : spec_float) : Q :=
  match x with
  | S754_finite s m e => (inject_Z (cond_Zopp s (Zpos m)) * Qpower 2 e)%Q
  | _ => 0%Q
  end.

Definition to_Q (x : float) : Q := SF2Q (Prim2SF x).

Definition is_finite (x : float) : bool :=
  match Prim2SF x with
  | S754_zero _ | S754_finite _ _ _ => true
  | S754_infinity _ | S754_nan => false
  end.

(** [math.ceil] of a float: an int, or an exception for a NaN or an
    infinity. *)
Definition ceil (x : float) : result Z :=
  match Prim2SF x with
  | S754_nan => Raise ValueError
  | S754_infinity _ => Raise OverflowError
  | finite => Ok (Qceiling (SF2Q finite))
  end.

(** The float an int becomes when it meets a float in an operation: the
    nearest one, or [OverflowError]. *)
Definition of_int (n : Z) : result float :=
  match binary_normalize prec emax n 0 false with
  | S754_infinity _ => Raise OverflowError
  | finite => Ok (SF2Prim finite)
  end.

Definition SERVICE_Z : list (float * float) :=
  [ (0.80, 0.84); (0.85, 1.04); (0.90, 1.28);
    (0.95, 1.65); (0.97, 1.88); (0.99, 2.33) ].

(** [k in d] and [d[k]] for float keys. *)
Definition contains (d : list (float * float)) (k : float) : bool :=
  existsb (fun entry => k =? fst entry) d.

Fixpoint getitem (d : list (float * float)) (k : float) : result float :=
  match d with
  | [] => Raise KeyError
  | (k', v) :: d' => if k =? k' then Ok v else getitem d' k
  end.

Record ReplenishmentDecision : Type := {
  forecast_demand : float;
  demand_std : float;
  estimated_lead_time_days : float;
  safety_stock : float;
  reorder_point : float;
  target_stock : float;
  recommended_order_qty : Z
}.

Record RetailDecisionAgent : Type := {
  service_level : float;
  review_period_days : Z;
  alpha : float;
  demand_window : Z
}.

(** [RetailDecisionAgent._exp_smoothing_forecast]. *)
Definition _exp_smoothing_forecast (self : RetailDecisionAgent)
    (history : list float) : float :=
  match history with
  | [] => 0
  | first :: rest =>
      let level :=
        fold_left (fun level value => alpha self * value + (1 - alpha self) * level)
                  rest first in
      float_max 0 level
  end.

(** [RetailDecisionAgent._recent_std]; [pstdev] is [statistics.pstdev]. *)
Definition _recent_std (pstdev : list float -> float) (history : list float)
  : float :=
  if (len history <? 2)%Z then 0 else pstdev history.

(** [RetailDecisionAgent.recommend].  The two functions of the [statistics]
    module are parameters: they are the library's, and nothing about their
    rounding is used. *)
Definition recommend (mean pstdev : list float -> float)
    (self : RetailDecisionAgent) (demand_history : list float)
    (inventory_on_hand inventory_on_order : float)
    (lead_time_history : option (list float)) : result ReplenishmentDecision :=
  let recent :=
    match demand_history with
    | [] => []
    | _ => slice_from (- demand_window self)%Z demand_history
    end in
  let forecast_daily := _exp_smoothing_forecast self recent in
  let demand_std := _recent_std pstdev recent in
  let lead_hist :=
    match lead_time_history with
    | None | Some [] => [7]
    | Some observed => observed
    end in
  let lead_time := float_max 1 (mean lead_hist) in
  match getitem SERVICE_Z (service_level self) with
  | Raise e => Raise e
  | Ok z =>
      let safety_stock := z * demand_std * sqrt lead_time in
      let reorder_point := forecast_daily * lead_time + safety_stock in
      match of_int (review_period_days self) with
      | Raise e => Raise e
      | Ok review_period =>
          let protection_days := lead_time + review_period in
          let target_stock := forecast_daily * protection_days + safety_stock in
          let net_stock := inventory_on_hand + inventory_on_order in
          let recommended := float_max 0 (target_stock - net_stock) in
          match ceil recommended with
          | Raise e => Raise e
          | Ok qty =>
              Ok {| forecast_demand := forecast_daily;
                    demand_std := demand_std;
                    estimated_lead_time_days := lead_time;
                    safety_stock := safety_stock;
                    reorder_point := reorder_point;
                    target_stock := target_stock;
                    recommended_order_qty := qty |}
          end
      end
  end.

(** The quantity as the specification words it, in exact arithmetic on the
    numbers the floats stand for: the shortfall of the net stock (on hand
    plus on order) below the target stock, or zero when there is none,
    rounded up to a whole number. *)
Definition exact_order_quantity
    (target_stock inventory_on_hand inventory_on_order : float) : Z :=
  let net_stock := (to_Q inventory_on_hand + to_Q inventory_on_order)%Q in
  let shortfall := (to_Q target_stock - net_stock)%Q in
  Qceiling (if Qle_bool shortfall 0 then 0%Q else shortfall).

(** The demand step of [run_validation] (lines 175-182) on the stock on
    hand, the stockout days and the accumulated shortage. *)
Definition consume (today_demand : float) (state : float * Z * float)
  : float * Z * float :=
  let '(inventory, stockout_days, total_shortage) := state in
  if today_demand <=? inventory
  then (inventory - today_demand, stockout_days, total_shortage)
  else
    let shortage := today_demand - inventory in
    (0, (stockout_days + 1)%Z, total_shortage + shortage).

(** *** The [statistics] module on finite floats

    [statistics.mean] adds the data as exact fractions and converts the
    quotient to the nearest float; [statistics.pstdev] (CPython 3.11) takes
    the exact mean squared deviation and returns its square root correctly
    rounded, through an integer square root rounded to odd. *)

Definition exact_sum (xs : list float) : Q :=
  fold_left Qplus (map to_Q xs) 0%Q.

(** [n / d] for two ints, [d > 0]. *)
Definition true_div (n : Z) (d : positive) : float :=
  match n with
  | Z0 => 0
  | Zpos p => SF2Prim (SFdiv prec emax (S754_finite false p 0) (S754_finite false d 0))
  | Zneg p => SF2Prim (SFdiv prec emax (S754_finite true p 0) (S754_finite false d 0))
  end.

Definition Q2float (q : Q) : float :=
  let r := Qred q in true_div (Qnum r) (Qden r).

Definition statistics_mean (xs : list float) : float :=
  Q2float (exact_sum xs / inject_Z (len xs))%Q.

Definition bit_length (n : Z) : Z :=
  if (n =? 0)%Z then 0%Z else (Z.log2 (Z.abs n) + 1)%Z.

Definition integer_sqrt_of_frac_rto (n m : Z) : Z :=
  let a := Z.sqrt (n / m) in
  Z.lor a (if (a * a * m =? n)%Z then 0 else 1).

Definition float_sqrt_of_frac (n m : Z) : float :=
  let q := ((bit_length n - bit_length m - 109) / 2)%Z in
  if (0 <=? q)%Z
  then true_div (Z.shiftl (integer_sqrt_of_frac_rto n (Z.shiftl m (2 * q))) q) 1
  else true_div (integer_sqrt_of_frac_rto (Z.shiftl n (- 2 * q)) m)
                (Z.to_pos (Z.shiftl 1 (- q))).

Definition statistics_pstdev (xs : list float) : float :=
  let n := inject_Z (len xs) in
  let sx := exact_sum xs in
  let sxx := fold_left Qplus (map (fun x => to_Q x * to_Q x)%Q xs) 0%Q in
  let ssd := ((n * sxx - sx * sx) / n)%Q in
  let mss := Qred (ssd / n) in
  float_sqrt_of_frac (Qnum mss) (Zpos (Qden mss)).

Definition default_agent : RetailDecisionAgent :=
  {| service_level := 0.95; review_period_days := 7;
     alpha := 0.35; demand_window := 28 |}.

End B64.

(** * Properties *)

(** ** The built-ins on small inputs *)

Example slice_from_last_three :
  slice_from (-3) [1; 2; 3; 4; 5]%Z = [3; 4; 5]%Z.
Proof. reflexivity. Qed.

Example slice_from_short_list :
  slice_from (-28) [1; 2; 3]%Z = [1; 2; 3]%Z.
Proof. reflexivity. Qed.

Example slice_from_minus_zero :
  slice_from (- 0) [1; 2; 3]%Z = [1; 2; 3]%Z.
Proof. reflexivity. Qed.

Example slice_to_two : slice_to 2 [1; 2; 3]%Z = [1; 2]%Z.
Proof. reflexivity. Qed.

Example range_33_36 : range 33 36 = [33; 34; 35]%Z.
Proof. reflexivity. Qed.

Example range_backwards : range 30 10 = [].
Proof. reflexivity. Qed.

Example sorted_keys :
  map str (sorted (keys SERVICE_Z)) =
  ["0.8"; "0.85"; "0.9"; "0.95"; "0.97"; "0.99"]%string.
Proof. reflexivity. Qed.

Example sorted_sorts : sorted [0.97; 0.8; 0.9]%Q = [0.8; 0.9; 0.97]%Q.
Proof. reflexivity. Qed.

Example getitem_095 : getitem SERVICE_Z 0.95%Q = Ok 1.65%Q.
Proof. reflexivity. Qed.

Example getitem_093 : getitem SERVICE_Z 0.93%Q = Raise KeyError.
Proof. reflexivity. Qed.

Example arrivals_on_day :
  arrivals_on 35 [(35, 240); (36, 12)]%Z = [240]%Z
  /\ in_transit 35 [(35, 240); (36, 12)]%Z = [(36, 12)]%Z
  /\ on_order_of [(35, 240); (36, 12)]%Z = 252%Z.
Proof. repeat split. Qed.

(** ** Construction *)

Lemma contains_is_key (sl : Q) : contains SERVICE_Z sl = true <-> is_key sl.
Proof.
  unfold contains, keys, is_key. rewrite existsb_exists. split.
  - intros [k [Hin Heq]]. apply in_map_iff in Hin as [[k' z] [Hk Hin]].
    simpl in Hk. subst k'. exists k, z. split; [exact Hin|].
    now apply Qeq_bool_iff.
  - intros [k [z [Hin Heq]]]. exists k. split.
    + apply in_map_iff. now exists (k, z).
    + now apply Qeq_bool_iff.
Qed.

Lemma is_key_cases (sl : Q) :
  is_key sl <->
  (sl == 0.80 \/ sl == 0.85 \/ sl == 0.90 \/ sl == 0.95 \/ sl == 0.97 \/ sl == 0.99)%Q.
Proof.
  unfold is_key, SERVICE_Z. split.
  - intros [k [z [Hin Heq]]]. simpl in Hin.
    repeat (destruct Hin as [Hin | Hin];
            [inversion Hin; subst; tauto|]).
    contradiction.
  - intros H.
    repeat (destruct H as [H | H];
            [eexists; eexists; split; [|exact H]; simpl; tauto|]).
    eexists; eexists; split; [|exact H]; simpl; tauto.
Qed.

Lemma init_accepts (sl : Q) (rp : Z) (a : R) (w : Z) :
  is_key sl ->
  init sl rp a w =
  Ok {| service_level := sl; review_period_days := rp;
        alpha := a; demand_window := w |}.
Proof.
  intros H. apply contains_is_key in H. unfold init. now rewrite H.
Qed.

Lemma init_rejects (sl : Q) (rp : Z) (a : R) (w : Z) :
  ~ is_key sl ->
  init sl rp a w = Raise (ValueError invalid_level_message).
Proof.
  intros H. unfold init.
  destruct (contains SERVICE_Z sl) eqn:E.
  - apply contains_is_key in E. contradiction.
  - reflexivity.
Qed.

(** C5.  A service level that is not a key of the table makes the constructor
    raise [ValueError] with a message that lists the six valid levels; a
    service level that is a key is accepted and stored. *)
Theorem C5_service_level_is_validated (sl : Q) (rp : Z) (a : R) (w : Z) :
  (is_key sl <->
   (sl == 0.80 \/ sl == 0.85 \/ sl == 0.90 \/ sl == 0.95 \/ sl == 0.97 \/ sl == 0.99)%Q)
  /\ (~ is_key sl ->
      init sl rp a w =
      Raise (ValueError
        "service_level inválido. Use um de: 0.8, 0.85, 0.9, 0.95, 0.97, 0.99"))
  /\ (is_key sl ->
      init sl rp a w =
      Ok {| service_level := sl; review_period_days := rp;
            alpha := a; demand_window := w |}).
Proof.
  split; [apply is_key_cases|].
  split; [apply init_rejects | apply init_accepts].
Qed.

Lemma not_key_093 : ~ is_key 0.93%Q.
Proof. intros H. apply contains_is_key in H. discriminate H. Qed.

Lemma is_key_095 : is_key 0.95%Q.
Proof. apply contains_is_key. reflexivity. Qed.

Lemma C5_service_level_is_validated_witness :
  init 0.93%Q 7 0.35 28 = Raise (ValueError invalid_level_message)
  /\ exists agent, init 0.95%Q 7 0.35 28 = Ok agent.
Proof.
  destruct (C5_service_level_is_validated 0.93%Q 7 0.35 28) as [_ [Hbad _]].
  destruct (C5_service_level_is_validated 0.95%Q 7 0.35 28) as [_ [_ Hgood]].
  split.
  - apply Hbad. exact not_key_093.
  - eexists. apply Hgood. exact is_key_095.
Defined.

(** C8 as stated fails: a negative review period with a valid service level
    is accepted. *)
Lemma C8_negative_review_period_accepted :
  ~ (forall sl rp a w, is_key sl -> (rp < 0)%Z ->
       exists e, init sl rp a w = Raise e).
Proof.
  intros H.
  destruct (H 0.95%Q (-1)%Z 0.35 28%Z is_key_095 eq_refl) as [e He].
  rewrite (init_accepts _ _ _ _ is_key_095) in He. discriminate He.
Qed.

(** C8, amended.  The constructor checks the service level only: with a valid
    service level every review period, negative ones included, is accepted
    and stored unchanged. *)
Theorem C8_review_period_is_not_validated (sl : Q) (rp : Z) (a : R) (w : Z) :
  is_key sl ->
  exists agent,
    init sl rp a w = Ok agent /\ review_period_days agent = rp.
Proof.
  intros H. eexists. split; [apply (init_accepts _ _ _ _ H)|reflexivity].
Qed.

Lemma C8_review_period_is_not_validated_witness :
  exists agent,
    init 0.95%Q (-1) 0.35 28 = Ok agent /\ review_period_days agent = (-1)%Z.
Proof.
  apply (C8_review_period_is_not_validated 0.95%Q (-1) 0.35 28).
  apply contains_is_key. reflexivity.
Defined.

(** ** Sums and means *)

Lemma fold_left_Rplus (xs : list R) (a : R) :
  fold_left Rplus xs a = a + fold_left Rplus xs 0.
Proof.
  revert a. induction xs as [|x xs IH]; intros a; simpl.
  - lra.
  - rewrite (IH (a + x)), (IH (0 + x)). lra.
Qed.

Lemma sum_nil : sum [] = 0.
Proof. reflexivity. Qed.

Lemma sum_cons (x : R) (xs : list R) : sum (x :: xs) = x + sum xs.
Proof. unfold sum. simpl. rewrite fold_left_Rplus. lra. Qed.

Lemma sum_fold_right (xs : list R) : sum xs = fold_right Rplus 0 xs.
Proof.
  induction xs as [|x xs IH]; [reflexivity|].
  rewrite sum_cons, IH. reflexivity.
Qed.

Lemma mean_arithmetic_mean (xs : list R) : mean xs = arithmetic_mean xs.
Proof.
  unfold mean, arithmetic_mean, len.
  now rewrite sum_fold_right, <- INR_IZR_INZ.
Qed.

Lemma sum_repeat (c : R) (n : nat) : sum (repeat c n) = INR n * c.
Proof.
  induction n as [|n IH].
  - simpl. rewrite sum_nil. lra.
  - cbn [repeat]. rewrite sum_cons, IH, S_INR. lra.
Qed.

Lemma len_repeat (c : R) (n : nat) : len (repeat c n) = Z.of_nat n.
Proof. unfold len. now rewrite repeat_length. Qed.

Lemma mean_repeat (c : R) (n : nat) : mean (repeat c (S n)) = c.
Proof.
  unfold mean. rewrite sum_repeat, len_repeat, <- INR_IZR_INZ.
  field. apply not_0_INR. discriminate.
Qed.

Lemma map_repeat {A B : Type} (f : A -> B) (c : A) (n : nat) :
  map f (repeat c n) = repeat (f c) n.
Proof. induction n as [|n IH]; simpl; [reflexivity|now rewrite IH]. Qed.

Lemma pstdev_repeat (c : R) (n : nat) : pstdev (repeat c (S n)) = 0.
Proof.
  unfold pstdev. rewrite mean_repeat, map_repeat, sum_repeat.
  replace (INR (S n) * ((c - c) * (c - c)) / IZR (len (repeat c (S n))))
    with 0.
  - apply sqrt_0.
  - unfold Rdiv. ring.
Qed.

Lemma smoothing_repeat (a c : R) (n : nat) :
  fold_left (fun level value => a * value + (1 - a) * level) (repeat c n) c = c.
Proof.
  induction n as [|n IH]; simpl; [reflexivity|].
  replace (a * c + (1 - a) * c) with c by ring. exact IH.
Qed.

Lemma forecast_repeat (agent : RetailDecisionAgent) (c : R) (n : nat) :
  _exp_smoothing_forecast agent (repeat c (S n)) = Rmax 0 c.
Proof.
  unfold _exp_smoothing_forecast. cbn [repeat].
  now rewrite smoothing_repeat.
Qed.

Lemma recent_std_repeat (c : R) (n : nat) : _recent_std (repeat c n) = 0.
Proof.
  unfold _recent_std. rewrite len_repeat.
  destruct (Z.of_nat n <? 2)%Z eqn:E; [reflexivity|].
  destruct n as [|n]; [discriminate E|]. apply pstdev_repeat.
Qed.

(** ** Slices *)

Lemma slice_from_window {A : Type} (w : Z) (xs : list A) :
  (0 < w)%Z -> (len xs <= w)%Z -> slice_from (- w) xs = xs.
Proof.
  intros Hw Hlen. unfold slice_from.
  replace (- w <? 0)%Z with true by (symmetry; apply Z.ltb_lt; lia).
  replace (Z.max 0 (len xs + - w)) with 0%Z by lia.
  reflexivity.
Qed.

(** ** The decision *)

Lemma getitem_is_key (sl : Q) :
  is_key sl -> exists z, getitem SERVICE_Z sl = Ok z.
Proof.
  intros H. apply contains_is_key in H. revert H.
  unfold contains, keys.
  induction SERVICE_Z as [|[k v] d IH]; simpl; [discriminate|].
  destruct (Qeq_bool sl k); [intros _; now exists v|exact IH].
Qed.

Lemma init_Ok (sl : Q) (rp : Z) (a : R) (w : Z) (agent : RetailDecisionAgent) :
  init sl rp a w = Ok agent ->
  is_key sl /\
  agent = {| service_level := sl; review_period_days := rp;
             alpha := a; demand_window := w |}.
Proof.
  unfold init. destruct (contains SERVICE_Z sl) eqn:E; simpl.
  - intros H. inversion H. split; [now apply contains_is_key|reflexivity].
  - discriminate.
Qed.

(** For an agent with a valid service level [recommend] returns, and the
    decision is the record below for the factor [z] of the table. *)
Lemma recommend_returns (agent : RetailDecisionAgent) (history : list R)
    (on_hand on_order : R) (lth : option (list R)) :
  is_key (service_level agent) ->
  exists z d,
    getitem SERVICE_Z (service_level agent) = Ok z /\
    recommend agent history on_hand on_order lth = Ok d /\
    let recent := match history with
                  | [] => []
                  | _ => slice_from (- demand_window agent) history
                  end in
    let lead_time := Rmax 1 (mean match lth with
                                  | None | Some [] => [7]
                                  | Some observed => observed
                                  end) in
    forecast_demand d = _exp_smoothing_forecast agent recent /\
    demand_std d = _recent_std recent /\
    estimated_lead_time_days d = lead_time /\
    safety_stock d = Q2R z * demand_std d * sqrt lead_time /\
    reorder_point d = forecast_demand d * lead_time + safety_stock d /\
    target_stock d =
      forecast_demand d * (lead_time + IZR (review_period_days agent))
      + safety_stock d /\
    recommended_order_qty d =
      Zceil (Rmax 0 (target_stock d - (on_hand + on_order))).
Proof.
  intros Hkey. destruct (getitem_is_key _ Hkey) as [z Hz].
  exists z. unfold recommend. rewrite Hz. cbn [bind].
  eexists. split; [reflexivity|]. split; [reflexivity|].
  cbn. repeat split; reflexivity.
Qed.

Lemma mean_singleton (x : R) : mean [x] = x.
Proof. unfold mean, len. rewrite sum_cons, sum_nil. simpl. field. Qed.

Lemma Zceil_0 : Zceil 0 = 0%Z.
Proof. apply Zceil_eq. simpl. lra. Qed.

(** C6.  The decision estimates the lead time as 7 days when no lead-time
    history is given or when it is empty; otherwise as the arithmetic mean of
    the observations, and as 1 day when that mean is below 1. *)
Theorem C6_lead_time_estimate (sl : Q) (rp : Z) (a : R) (w : Z)
    (agent : RetailDecisionAgent) (history : list R) (on_hand on_order : R)
    (lth : option (list R)) :
  init sl rp a w = Ok agent ->
  exists d,
    recommend agent history on_hand on_order lth = Ok d /\
    match lth with
    | None | Some [] => estimated_lead_time_days d = 7
    | Some observed =>
        (1 <= arithmetic_mean observed ->
         estimated_lead_time_days d = arithmetic_mean observed) /\
        (arithmetic_mean observed <= 1 -> estimated_lead_time_days d = 1)
    end.
Proof.
  intros Hinit. apply init_Ok in Hinit as [Hkey ->].
  destruct (recommend_returns
              {| service_level := sl; review_period_days := rp;
                 alpha := a; demand_window := w |}
              history on_hand on_order lth Hkey)
    as [z [d [_ [Hd [_ [_ [Hlt _]]]]]]].
  exists d. split; [exact Hd|]. rewrite Hlt.
  destruct lth as [[|x xs]|].
  - rewrite mean_singleton. apply Rmax_right. lra.
  - rewrite mean_arithmetic_mean. split; intros H.
    + now apply Rmax_right.
    + now apply Rmax_left.
  - rewrite mean_singleton. apply Rmax_right. lra.
Qed.

Lemma C6_lead_time_estimate_witness :
  exists d,
    recommend {| service_level := 0.95%Q; review_period_days := 7;
                 alpha := 0.35; demand_window := 28 |}
              [20; 22] 100 0 (Some [4; 6]) = Ok d /\
    ((1 <= arithmetic_mean [4; 6] ->
      estimated_lead_time_days d = arithmetic_mean [4; 6]) /\
     (arithmetic_mean [4; 6] <= 1 -> estimated_lead_time_days d = 1)).
Proof.
  apply (C6_lead_time_estimate 0.95%Q 7 0.35 28 _ [20; 22] 100 0 (Some [4; 6])).
  reflexivity.
Defined.

(** C7.  With an empty demand history and non-negative stock on hand and on
    order, the decision is returned (no error) with forecast, deviation,
    reorder point, target stock and recommended quantity all zero. *)
Theorem C7_empty_history (sl : Q) (rp : Z) (a : R) (w : Z)
    (agent : RetailDecisionAgent) (on_hand on_order : R)
    (lth : option (list R)) :
  init sl rp a w = Ok agent ->
  0 <= on_hand -> 0 <= on_order ->
  exists d,
    recommend agent [] on_hand on_order lth = Ok d /\
    forecast_demand d = 0 /\
    demand_std d = 0 /\
    reorder_point d = 0 /\
    target_stock d = 0 /\
    recommended_order_qty d = 0%Z.
Proof.
  intros Hinit Hhand Horder. apply init_Ok in Hinit as [Hkey ->].
  destruct (recommend_returns
              {| service_level := sl; review_period_days := rp;
                 alpha := a; demand_window := w |}
              [] on_hand on_order lth Hkey)
    as [z [d [_ [Hd [Hf [Hs [_ [Hss [Hrop [Htgt Hqty]]]]]]]]]].
  exists d. split; [exact Hd|].
  cbn in Hf, Hs. rewrite Hf, Hs in *.
  assert (Hss0 : safety_stock d = 0) by (rewrite Hss; ring).
  assert (Htgt0 : target_stock d = 0) by (rewrite Htgt, Hss0; ring).
  repeat split; try assumption.
  - rewrite Hrop, Hss0. ring.
  - rewrite Hqty, Htgt0, Rmax_left by lra. apply Zceil_0.
Qed.

Lemma C7_empty_history_witness :
  exists d,
    recommend {| service_level := 0.95%Q; review_period_days := 7;
                 alpha := 0.35; demand_window := 28 |}
              [] 120 20 None = Ok d /\
    forecast_demand d = 0 /\
    demand_std d = 0 /\
    reorder_point d = 0 /\
    target_stock d = 0 /\
    recommended_order_qty d = 0%Z.
Proof.
  apply (C7_empty_history 0.95%Q 7 0.35 28 _ 120 20 None).
  - reflexivity.
  - lra.
  - lra.
Defined.

Lemma recent_window_repeat (c : R) (n : nat) (w : Z) :
  (0 < w)%Z -> (Z.of_nat n <= w)%Z ->
  match repeat c n with
  | [] => []
  | _ => slice_from (- w) (repeat c n)
  end = repeat c n.
Proof.
  intros Hw Hn. destruct n as [|n]; [reflexivity|].
  cbn [repeat]. change (c :: repeat c n) with (repeat c (S n)).
  apply slice_from_window; [exact Hw|now rewrite len_repeat].
Qed.

(** C1.  Scenario A: 28 observations of 20.0, smoothing 0.35, window 28,
    review period 7 and a lead-time history whose mean is 5.  For each of the
    supported service levels the decision has forecast 20, deviation 0,
    safety stock 0, reorder point 100 and, with 12 protection days, target
    stock 240. *)
Theorem C1_constant_demand (sl : Q) (on_hand on_order : R) (lth : list R) :
  is_key sl ->
  lth <> [] ->
  arithmetic_mean lth = 5 ->
  exists agent d,
    init sl 7 0.35 28 = Ok agent /\
    recommend agent (repeat 20 28) on_hand on_order (Some lth) = Ok d /\
    forecast_demand d = 20 /\
    demand_std d = 0 /\
    safety_stock d = 0 /\
    estimated_lead_time_days d = 5 /\
    estimated_lead_time_days d + IZR (review_period_days agent) = 12 /\
    reorder_point d = 100 /\
    target_stock d = 240.
Proof.
  intros Hkey Hne Hmean.
  exists {| service_level := sl; review_period_days := 7;
            alpha := 0.35; demand_window := 28 |}.
  destruct (recommend_returns
              {| service_level := sl; review_period_days := 7;
                 alpha := 0.35; demand_window := 28 |}
              (repeat 20 28) on_hand on_order (Some lth) Hkey)
    as [z [d [_ [Hd [Hf [Hs [Hlt [Hss [Hrop [Htgt _]]]]]]]]]].
  exists d. split; [now apply init_accepts|]. split; [exact Hd|].
  cbn [demand_window review_period_days] in *.
  rewrite recent_window_repeat in Hf, Hs by (simpl; lia).
  change 28%nat with (S 27) in Hf. rewrite forecast_repeat in Hf.
  rewrite Rmax_right in Hf by lra.
  rewrite recent_std_repeat in Hs.
  assert (Hlead : Rmax 1 (mean match lth with
                                 | [] => [7]
                                 | _ :: _ => lth
                                 end) = 5).
  { destruct lth as [|x xs]; [contradiction|].
    rewrite mean_arithmetic_mean, Hmean. apply Rmax_right. lra. }
  rewrite Hlead in *.
  assert (Hss0 : safety_stock d = 0) by (rewrite Hss, Hs; ring).
  repeat split; try assumption.
  - rewrite Hlt. lra.
  - rewrite Hrop, Hf, Hss0. lra.
  - rewrite Htgt, Hf, Hss0. lra.
Qed.

Lemma arithmetic_mean_5 : arithmetic_mean [5] = 5.
Proof. unfold arithmetic_mean. simpl. field. Qed.

Lemma C1_constant_demand_witness :
  exists agent d,
    init 0.99%Q 7 0.35 28 = Ok agent /\
    recommend agent (repeat 20 28) 140 40 (Some [5]) = Ok d /\
    forecast_demand d = 20 /\
    demand_std d = 0 /\
    safety_stock d = 0 /\
    estimated_lead_time_days d = 5 /\
    estimated_lead_time_days d + IZR (review_period_days agent) = 12 /\
    reorder_point d = 100 /\
    target_stock d = 240.
Proof.
  apply (C1_constant_demand 0.99%Q 140 40 [5]).
  - apply contains_is_key. reflexivity.
  - discriminate.
  - exact arithmetic_mean_5.
Defined.

(** ** Ranges and loops *)

Lemma range_nil (a b : Z) : (b <= a)%Z -> range a b = [].
Proof.
  intros H. unfold range. now replace (Z.to_nat (b - a)) with 0%nat by lia.
Qed.

Lemma range_snoc (a b : Z) : (a <= b)%Z -> range a (b + 1) = range a b ++ [b].
Proof.
  intros H. unfold range.
  replace (Z.to_nat (b + 1 - a)) with (S (Z.to_nat (b - a))) by lia.
  rewrite seq_S, map_app. simpl. do 2 f_equal. lia.
Qed.

Lemma in_range (a b d : Z) : In d (range a b) <-> (a <= d < b)%Z.
Proof.
  unfold range. rewrite in_map_iff. split.
  - intros [i [<- Hi]]. apply in_seq in Hi. lia.
  - intros H. exists (Z.to_nat (d - a)). split; [lia|].
    apply in_seq. lia.
Qed.

Lemma length_range (a b : Z) : len (range a b) = Z.max 0 (b - a).
Proof. unfold len, range. rewrite length_map, length_seq. lia. Qed.

Lemma for_each_app {S A : Type} (body : S -> A -> result S)
    (xs ys : list A) (s : S) :
  for_each body (xs ++ ys) s = (s' <- for_each body xs s ;; for_each body ys s').
Proof.
  revert s. induction xs as [|x xs IH]; intros s; simpl; [reflexivity|].
  destruct (body s x); simpl; [apply IH|reflexivity].
Qed.

Section Run.

Variables (demand : list R) (agent : RetailDecisionAgent).
Variables (initial_inventory : R) (lead_time_days : Z).

Let start := start_day demand.
Let before (day : Z) :=
  state_before day demand agent initial_inventory lead_time_days.

Lemma state_before_start : before start = Ok (initial_state initial_inventory).
Proof.
  unfold before, state_before. now rewrite range_nil by (unfold start; lia).
Qed.

Lemma state_before_succ (day : Z) :
  (start <= day)%Z ->
  before (day + 1) =
  (st <- before day ;; simulate_day agent demand lead_time_days st day).
Proof.
  intros H. unfold before, state_before. fold start.
  rewrite range_snoc, for_each_app by exact H.
  destruct (for_each _ (range start day) _); simpl; [|reflexivity].
  now destruct (simulate_day agent demand lead_time_days a day).
Qed.

(** A property of the loop state that holds on entry and that every
    simulated day re-establishes holds whenever the loop reaches a day, and
    the loop does reach it. *)
Lemma state_before_invariant (P : Z -> SimState -> Prop) :
  P start (initial_state initial_inventory) ->
  (forall day st,
      (start <= day < len demand)%Z -> P day st ->
      exists st', simulate_day agent demand lead_time_days st day = Ok st'
                  /\ P (day + 1)%Z st') ->
  forall day, (start <= day)%Z -> (day <= len demand)%Z ->
    exists st, before day = Ok st /\ P day st.
Proof.
  intros Hinit Hstep day Hlo.
  pattern day. apply Zlt_lower_bound_ind with (z := start); [|exact Hlo].
  clear day Hlo. intros day IH Hlo Hhi.
  destruct (Z.eq_dec day start) as [->|Hne].
  - exists (initial_state initial_inventory).
    split; [apply state_before_start|exact Hinit].
  - destruct (IH (day - 1)%Z) as [st [Hst HP]]; try lia.
    destruct (Hstep (day - 1)%Z st) as [st' [Hst' HP']]; [lia|exact HP|].
    exists st'. replace day with (day - 1 + 1)%Z at 1 by lia.
    rewrite state_before_succ, Hst by lia. simpl.
    split; [exact Hst'|]. now replace day with (day - 1 + 1)%Z by lia.
Qed.

Lemma run_validation_final (final : SimState) :
  before (len demand) = Ok final ->
  run_validation demand agent initial_inventory lead_time_days =
  Ok {| periods := len demand - start;
        stockout_rate :=
          if (len demand - start =? 0)%Z then 0
          else IZR (stockout_days final) / IZR (len demand - start);
        avg_ending_inventory :=
          if (len demand - start =? 0)%Z then 0
          else total_holding final / IZR (len demand - start);
        total_shortage_units := total_shortage final;
        orders_placed := placed_orders final |}.
Proof.
  unfold before, state_before, run_validation. fold start.
  intros ->. reflexivity.
Qed.

End Run.

(** ** One simulated day *)

Lemma sum_int_acc (xs : list Z) (a : Z) :
  fold_left Z.add xs a = (a + sum_int xs)%Z.
Proof.
  unfold sum_int. revert a. induction xs as [|x xs IH]; intros a; simpl.
  - lia.
  - rewrite (IH (a + x)%Z), (IH x). lia.
Qed.

Lemma sum_int_cons (x : Z) (xs : list Z) : sum_int (x :: xs) = (x + sum_int xs)%Z.
Proof. unfold sum_int at 1. simpl. now rewrite sum_int_acc. Qed.

Lemma sum_int_app (xs ys : list Z) :
  sum_int (xs ++ ys) = (sum_int xs + sum_int ys)%Z.
Proof.
  induction xs as [|x xs IH]; [reflexivity|].
  simpl. rewrite !sum_int_cons, IH. lia.
Qed.

Lemma sum_int_nonneg (xs : list Z) :
  Forall (fun q => (0 < q)%Z) xs -> (0 <= sum_int xs)%Z.
Proof.
  induction 1 as [|x xs Hx _ IH]; [reflexivity|].
  rewrite sum_int_cons. lia.
Qed.

Lemma on_order_of_app (pl later : list (Z * Z)) :
  on_order_of (pl ++ later) = (on_order_of pl + on_order_of later)%Z.
Proof. unfold on_order_of. now rewrite map_app, sum_int_app. Qed.

Lemma receive_inventory (day : Z) (st : SimState) :
  inventory (receive day st) =
  inventory st + IZR (sum_int (arrivals_on day (pipeline st))).
Proof.
  unfold receive. cbn [inventory].
  destruct (arrivals_on day (pipeline st)); [|reflexivity].
  change (sum_int []) with 0%Z. lra.
Qed.

Lemma arrivals_positive (day : Z) (pl : list (Z * Z)) :
  positive_orders pl -> Forall (fun q => (0 < q)%Z) (arrivals_on day pl).
Proof.
  unfold positive_orders, arrivals_on. intros H.
  apply Forall_map. apply Forall_forall. intros e He.
  apply filter_In in He as [He _].
  rewrite Forall_forall in H. now apply H.
Qed.

Lemma in_transit_positive (day : Z) (pl : list (Z * Z)) :
  positive_orders pl -> positive_orders (in_transit day pl).
Proof.
  unfold positive_orders, in_transit. rewrite !Forall_forall.
  intros H e He. apply filter_In in He as [He _]. now apply H.
Qed.

Lemma reorder_cases (agent : RetailDecisionAgent) (demand : list R)
    (lead_time_days day : Z) (st : SimState) :
  is_key (service_level agent) ->
  exists d,
    recommend agent (slice_to day demand) (inventory st)
              (IZR (on_order_of (pipeline st)))
              (Some [IZR lead_time_days]) = Ok d /\
    ((inventory st + IZR (on_order_of (pipeline st)) <= reorder_point d /\
      (0 < recommended_order_qty d)%Z /\
      reorder agent demand lead_time_days day st =
      Ok (place_order (day + lead_time_days) (recommended_order_qty d) st))
     \/
     (~ (inventory st + IZR (on_order_of (pipeline st)) <= reorder_point d /\
         (0 < recommended_order_qty d)%Z) /\
      reorder agent demand lead_time_days day st = Ok st)).
Proof.
  intros Hkey.
  destruct (recommend_returns agent (slice_to day demand) (inventory st)
              (IZR (on_order_of (pipeline st))) (Some [IZR lead_time_days]) Hkey)
    as [z [d [_ [Hd _]]]].
  exists d. split; [exact Hd|]. unfold reorder. rewrite Hd. cbn [bind].
  destruct (Rle_dec _ _) as [Hle|Hgt].
  - destruct (recommended_order_qty d >? 0)%Z eqn:Hq.
    + left. repeat split; [exact Hle|lia].
    + right. split; [lia|reflexivity].
  - right. split; [tauto|reflexivity].
Qed.

Lemma simulate_day_cases (agent : RetailDecisionAgent) (demand : list R)
    (lead_time_days day : Z) (st : SimState) :
  is_key (service_level agent) ->
  exists ordered,
    reorder agent demand lead_time_days day (receive day st) = Ok ordered /\
    reordered (day + lead_time_days) (receive day st) ordered /\
    simulate_day agent demand lead_time_days st day =
    Ok (accrue (consume demand day ordered)).
Proof.
  intros Hkey.
  destruct (reorder_cases agent demand lead_time_days day (receive day st) Hkey)
    as [d [_ [[_ [Hq Hre]]|[_ Hre]]]].
  - eexists. split; [exact Hre|]. split.
    + right. eexists. split; [exact Hq|reflexivity].
    + unfold simulate_day. now rewrite Hre.
  - exists (receive day st). split; [exact Hre|]. split.
    + now left.
    + unfold simulate_day. now rewrite Hre.
Qed.

Lemma consume_pipeline (demand : list R) (day : Z) (st : SimState) :
  pipeline (consume demand day st) = pipeline st.
Proof. unfold consume. now destruct (Rge_dec _ _). Qed.

Lemma consume_inventory_nonneg (demand : list R) (day : Z) (st : SimState) :
  0 <= inventory (consume demand day st).
Proof.
  unfold consume. destruct (Rge_dec _ _) as [H|H]; cbn [inventory]; lra.
Qed.

Lemma consume_total_holding (demand : list R) (day : Z) (st : SimState) :
  total_holding (consume demand day st) = total_holding st.
Proof. unfold consume. now destruct (Rge_dec _ _). Qed.

Lemma reordered_inventory (arrival : Z) (st st' : SimState) :
  reordered arrival st st' ->
  inventory st' = inventory st /\ total_holding st' = total_holding st.
Proof. intros [->|[q [_ ->]]]; split; reflexivity. Qed.

Lemma reordered_pipeline (arrival : Z) (st st' : SimState) :
  reordered arrival st st' ->
  exists new, pipeline st' = pipeline st ++ new /\
              (new = [] \/ exists q, (0 < q)%Z /\ new = [(arrival, q)]).
Proof.
  intros [->|[q [Hq ->]]].
  - exists []. split; [now rewrite app_nil_r|now left].
  - exists [(arrival, q)]. split; [reflexivity|]. right. now exists q.
Qed.

(** ** Whole runs *)

Section Tracking.

Variables (demand : list R) (agent : RetailDecisionAgent).
Variables (initial_inventory : R) (lead_time_days : Z).

Let start := start_day demand.
Let before (day : Z) :=
  state_before day demand agent initial_inventory lead_time_days.

(** A property established on day [d] and kept by every later simulated
    day holds on all later days the loop reaches. *)
Lemma state_before_from (Q : Z -> SimState -> Prop) (d : Z) :
  (start <= d)%Z ->
  (forall st, before d = Ok st -> Q d st) ->
  (forall day st st',
      (d <= day)%Z -> before day = Ok st -> Q day st ->
      simulate_day agent demand lead_time_days st day = Ok st' ->
      Q (day + 1)%Z st') ->
  forall day, (d <= day)%Z -> forall st, before day = Ok st -> Q day st.
Proof.
  intros Hd Hbase Hstep day Hlo.
  pattern day. apply Zlt_lower_bound_ind with (z := d); [|exact Hlo].
  clear day Hlo. intros day IH Hlo st Hst.
  destruct (Z.eq_dec day d) as [->|Hne]; [now apply Hbase|].
  replace day with (day - 1 + 1)%Z in Hst |- * by lia.
  unfold before in Hst.
  rewrite state_before_succ in Hst by (fold start; lia).
  destruct (state_before (day - 1) demand agent initial_inventory
                         lead_time_days) as [prev|] eqn:Hprev;
    [|discriminate Hst].
  cbn [bind] in Hst.
  apply (Hstep (day - 1)%Z prev st); [lia|exact Hprev| |exact Hst].
  apply IH; [lia|exact Hprev].
Qed.

Lemma state_before_early (day : Z) :
  (day <= start)%Z -> before day = Ok (initial_state initial_inventory).
Proof.
  intros H. unfold before, state_before. now rewrite range_nil by exact H.
Qed.

Hypothesis valid : is_key (service_level agent).

Lemma simulate_day_stock_ok (day : Z) (st : SimState) :
  stock_ok st ->
  exists st', simulate_day agent demand lead_time_days st day = Ok st'
              /\ stock_ok st'.
Proof.
  intros [Hinv [Hhold Hpos]].
  destruct (simulate_day_cases agent demand lead_time_days day st valid)
    as [ordered [_ [Hre Hday]]].
  eexists. split; [exact Hday|].
  destruct (reordered_inventory _ _ _ Hre) as [_ Hh].
  pose proof (consume_inventory_nonneg demand day ordered) as Hc.
  unfold stock_ok, accrue. cbn [inventory total_holding pipeline].
  rewrite consume_total_holding, consume_pipeline, Hh.
  split; [exact Hc|]. split; [cbn [receive total_holding]; lra|].
  destruct (reordered_pipeline _ _ _ Hre) as [new [-> Hnew]].
  apply Forall_app. split.
  - now apply in_transit_positive.
  - destruct Hnew as [->|[q [Hq ->]]]; [constructor|].
    constructor; [exact Hq|constructor].
Qed.

Lemma initial_stock_ok : 0 <= initial_inventory ->
  stock_ok (initial_state initial_inventory).
Proof.
  intros H. unfold stock_ok. cbn. repeat split; try lra. constructor.
Qed.

(** The loop reaches every day up to the end of the series. *)
Lemma state_before_stock_ok (day : Z) :
  0 <= initial_inventory -> (day <= len demand)%Z ->
  exists st, before day = Ok st /\ stock_ok st.
Proof.
  intros Hinv Hhi. destruct (Z.le_gt_cases day start) as [Hle|Hgt].
  - exists (initial_state initial_inventory).
    split; [now apply state_before_early|now apply initial_stock_ok].
  - apply (state_before_invariant demand agent initial_inventory
             lead_time_days (fun _ => stock_ok)).
    + now apply initial_stock_ok.
    + intros d st _ Hst. now apply simulate_day_stock_ok.
    + fold start. lia.
    + exact Hhi.
Qed.

Lemma state_before_returns (day : Z) :
  (day <= len demand)%Z -> exists st, before day = Ok st.
Proof.
  intros Hhi. destruct (Z.le_gt_cases day start) as [Hle|Hgt].
  - eexists. now apply state_before_early.
  - destruct (state_before_invariant demand agent initial_inventory
                lead_time_days (fun _ _ => True)) with (day := day)
      as [st [Hst _]]; try exact I; try (fold start; lia).
    + intros d st _ _.
      destruct (simulate_day_cases agent demand lead_time_days d st valid)
        as [ordered [_ [_ Hday]]].
      eexists. split; [exact Hday|exact I].
    + now exists st.
Qed.

End Tracking.

(** ** The metrics *)

Lemma start_day_cases (demand : list R) :
  ((len demand <= 92 -> start_day demand = 30) /\
   (93 <= len demand <= 134 -> start_day demand = len demand / 3) /\
   (135 <= len demand -> start_day demand = 45))%Z.
Proof.
  unfold start_day.
  assert (Hdiv : (3 * (len demand / 3) <= len demand < 3 * (len demand / 3) + 3)%Z).
  { pose proof (Z.div_mod (len demand) 3 ltac:(lia)).
    pose proof (Z.mod_pos_bound (len demand) 3 ltac:(lia)). lia. }
  repeat split; intros H; lia.
Qed.

Lemma run_validation_returns (demand : list R) (agent : RetailDecisionAgent)
    (initial_inventory : R) (lead_time_days : Z) :
  is_key (service_level agent) ->
  exists final m,
    state_before (len demand) demand agent initial_inventory lead_time_days
      = Ok final /\
    run_validation demand agent initial_inventory lead_time_days = Ok m /\
    periods m = (len demand - start_day demand)%Z /\
    (periods m <> 0%Z ->
     stockout_rate m = IZR (stockout_days final) / IZR (periods m) /\
     avg_ending_inventory m = total_holding final / IZR (periods m)) /\
    (periods m = 0%Z -> stockout_rate m = 0 /\ avg_ending_inventory m = 0) /\
    total_shortage_units m = total_shortage final /\
    orders_placed m = placed_orders final.
Proof.
  intros Hkey.
  destruct (state_before_returns demand agent initial_inventory lead_time_days
              Hkey (len demand) (Z.le_refl _)) as [final Hfinal].
  exists final. eexists. split; [exact Hfinal|].
  split; [apply (run_validation_final _ _ _ _ _ Hfinal)|].
  cbn [periods stockout_rate avg_ending_inventory total_shortage_units
       orders_placed].
  split; [reflexivity|].
  destruct (len demand - start_day demand =? 0)%Z eqn:E.
  - apply Z.eqb_eq in E. repeat split; try reflexivity; intros; contradiction.
  - apply Z.eqb_neq in E. repeat split; try reflexivity; intros; contradiction.
Qed.

(** C3 as stated fails: a series of 50 days starts on day 30, not 33, and
    gives 20 periods, not 17. *)
Lemma C3_fifty_days_give_twenty_periods :
  start_day (repeat 20 50) = 30%Z /\
  exists m,
    run_validation (repeat 20 50) default_agent 120 5 = Ok m /\
    periods m = 20%Z /\ periods m <> 17%Z.
Proof.
  assert (Hstart : start_day (repeat 20 50) = 30%Z).
  { unfold start_day. rewrite len_repeat. reflexivity. }
  split; [exact Hstart|].
  destruct (run_validation_returns (repeat 20 50) default_agent 120 5 is_key_095)
    as [final [m [_ [Hm [Hp _]]]]].
  exists m. split; [exact Hm|].
  rewrite Hp, Hstart, len_repeat. split; [reflexivity|discriminate].
Qed.

(** C3, amended.  For a series of [n] days the loop runs over the days from
    [max(30, min(45, n // 3))] to [n - 1]: day 30 up to 92 days, day [n // 3]
    from 93 to 134 days, day 45 from 135 days on.  From 30 days on the
    returned periods is the number of simulated days, [n - start]; 50 days
    give start 30 and 20 periods.  With periods not zero the stockout rate
    is the stockout days over the periods and the average ending inventory
    the holding total over the periods; with zero periods both are 0. *)
Theorem C3_periods_and_rates (demand : list R) (agent : RetailDecisionAgent)
    (initial_inventory : R) (lead_time_days : Z) :
  is_key (service_level agent) ->
  let n := len demand in
  let start := Z.max 30 (Z.min 45 (n / 3)) in
  exists final m,
    for_each (simulate_day agent demand lead_time_days) (range start n)
             (initial_state initial_inventory) = Ok final /\
    run_validation demand agent initial_inventory lead_time_days = Ok m /\
    ((n <= 92 -> start = 30) /\ (93 <= n <= 134 -> start = n / 3) /\
     (135 <= n -> start = 45))%Z /\
    (forall day, In day (range start n) <-> (start <= day < n)%Z) /\
    (30 <= n -> periods m = len (range start n) /\ periods m = n - start)%Z /\
    (n = 50 -> start = 30 /\ periods m = 20)%Z /\
    (periods m <> 0%Z ->
     stockout_rate m = IZR (stockout_days final) / IZR (periods m) /\
     avg_ending_inventory m = total_holding final / IZR (periods m)) /\
    (periods m = 0%Z -> stockout_rate m = 0 /\ avg_ending_inventory m = 0).
Proof.
  intros Hkey n start.
  destruct (run_validation_returns demand agent initial_inventory
              lead_time_days Hkey)
    as [final [m [Hfinal [Hm [Hp [Hrates [Hzero _]]]]]]].
  exists final, m. split; [exact Hfinal|]. split; [exact Hm|].
  split; [apply start_day_cases|]. split; [intros day; apply in_range|].
  change (start_day demand) with start in Hp. fold n in Hp.
  split; [|split; [|split; assumption]].
  - intros Hn. rewrite length_range, Hp.
    assert (Hdiv : (n / 3 <= n)%Z) by (apply Z.div_le_upper_bound; lia).
    subst start. lia.
  - intros Hn. rewrite Hp. subst start. rewrite Hn. split; reflexivity.
Qed.

Lemma C3_periods_and_rates_witness :
  exists final m,
    for_each (simulate_day default_agent (repeat 20 50) 5)
             (range (Z.max 30 (Z.min 45 (len (repeat 20 50) / 3)))
                    (len (repeat 20 50)))
             (initial_state 120) = Ok final /\
    run_validation (repeat 20 50) default_agent 120 5 = Ok m /\
    (len (repeat 20 50) = 50 ->
     Z.max 30 (Z.min 45 (len (repeat 20 50) / 3)) = 30 /\ periods m = 20)%Z.
Proof.
  destruct (C3_periods_and_rates (repeat 20 50) default_agent 120 5)
    as [final [m [Hfinal [Hm [_ [_ [_ [H50 _]]]]]]]].
  - apply contains_is_key. reflexivity.
  - exists final, m. split; [exact Hfinal|]. split; [exact Hm|exact H50].
Defined.

(** ** Stock on hand *)

Lemma receive_stock_ok (day : Z) (st : SimState) :
  stock_ok st -> stock_ok (receive day st).
Proof.
  intros [Hinv [Hhold Hpos]]. unfold stock_ok.
  rewrite receive_inventory. cbn [receive total_holding pipeline].
  split; [|split; [exact Hhold|now apply in_transit_positive]].
  pose proof (sum_int_nonneg _ (arrivals_positive day _ Hpos)) as Hsum.
  apply IZR_le in Hsum. lra.
Qed.

(** C9.  In a run that starts with a non-negative inventory over
    non-negative demand, the stock on hand is non-negative at every point of
    every simulated day (on entry, after the arrivals, after the reorder
    check, after the demand, at the holding accrual), so the holding total
    never decreases and is non-negative, and so is the average ending
    inventory. *)
Theorem C9_inventory_never_negative (demand : list R)
    (agent : RetailDecisionAgent) (initial_inventory : R)
    (lead_time_days : Z) :
  is_key (service_level agent) ->
  0 <= initial_inventory ->
  Forall (fun x => 0 <= x) demand ->
  (forall day, (start_day demand <= day < len demand)%Z ->
     exists st ordered,
       state_before day demand agent initial_inventory lead_time_days = Ok st /\
       reorder agent demand lead_time_days day (receive day st) = Ok ordered /\
       state_before (day + 1) demand agent initial_inventory lead_time_days
         = Ok (accrue (consume demand day ordered)) /\
       0 <= inventory st /\
       0 <= inventory (receive day st) /\
       0 <= inventory ordered /\
       0 <= inventory (consume demand day ordered) /\
       0 <= inventory (accrue (consume demand day ordered)) /\
       0 <= total_holding st <= total_holding (accrue (consume demand day ordered)))
  /\
  exists final m,
    state_before (len demand) demand agent initial_inventory lead_time_days
      = Ok final /\
    run_validation demand agent initial_inventory lead_time_days = Ok m /\
    0 <= inventory final /\
    0 <= total_holding final /\
    0 <= avg_ending_inventory m.
Proof.
  intros Hkey Hinv _. split.
  - intros day [Hlo Hhi].
    destruct (state_before_stock_ok demand agent initial_inventory
                lead_time_days Hkey day Hinv ltac:(lia)) as [st [Hst Hok]].
    destruct (simulate_day_cases agent demand lead_time_days day st Hkey)
      as [ordered [Hord [Hre Hday]]].
    exists st, ordered. split; [exact Hst|]. split; [exact Hord|].
    split; [rewrite state_before_succ, Hst by exact Hlo; exact Hday|].
    destruct (receive_stock_ok day st Hok) as [Hrecv _].
    destruct (reordered_inventory _ _ _ Hre) as [Hi Hh].
    pose proof (consume_inventory_nonneg demand day ordered) as Hc.
    destruct Hok as [Hi0 [Hh0 _]].
    cbn [accrue inventory total_holding].
    rewrite consume_total_holding, Hi, Hh.
    cbn [receive total_holding]. repeat split; lra.
  - destruct (run_validation_returns demand agent initial_inventory
                lead_time_days Hkey)
      as [final [m [Hfinal [Hm [Hp [Hrates [Hzero _]]]]]]].
    destruct (state_before_stock_ok demand agent initial_inventory
                lead_time_days Hkey (len demand) Hinv (Z.le_refl _))
      as [final' [Hfinal' [Hi [Hh _]]]].
    rewrite Hfinal in Hfinal'. inversion Hfinal'. subst final'.
    exists final, m. repeat split; try assumption.
    destruct (Z.eq_dec (periods m) 0) as [E|E].
    + destruct (Hzero E) as [_ ->]. lra.
    + destruct (Hrates E) as [_ ->].
      destruct (Z.lt_trichotomy (periods m) 0) as [Hneg|[Hz|Hpos]];
        [|contradiction|].
      * rewrite state_before_early in Hfinal by lia.
        inversion Hfinal. cbn. unfold Rdiv. rewrite Rmult_0_l. lra.
      * apply Rmult_le_pos; [exact Hh|].
        apply Rlt_le, Rinv_0_lt_compat, IZR_lt. exact Hpos.
Qed.

Lemma all_nonneg_repeat (c : R) (n : nat) :
  0 <= c -> Forall (fun x => 0 <= x) (repeat c n).
Proof.
  intros Hc. apply Forall_forall. intros x Hx.
  apply repeat_spec in Hx. now subst x.
Qed.

Lemma C9_inventory_never_negative_witness :
  exists final m,
    state_before (len (repeat 20 50)) (repeat 20 50) default_agent 120 5
      = Ok final /\
    run_validation (repeat 20 50) default_agent 120 5 = Ok m /\
    0 <= inventory final /\
    0 <= total_holding final /\
    0 <= avg_ending_inventory m.
Proof.
  apply (C9_inventory_never_negative (repeat 20 50) default_agent 120 5).
  - apply contains_is_key. reflexivity.
  - lra.
  - apply all_nonneg_repeat. lra.
Defined.

(** ** Orders that are never delivered *)

Lemma filter_all {A : Type} (f : A -> bool) (xs : list A) :
  (forall x, In x xs -> f x = true) -> filter f xs = xs.
Proof.
  induction xs as [|x xs IH]; intros H; simpl; [reflexivity|].
  rewrite (H x (or_introl eq_refl)). f_equal. apply IH.
  intros y Hy. apply H. now right.
Qed.

Lemma filter_none {A : Type} (f : A -> bool) (xs : list A) :
  (forall x, In x xs -> f x = false) -> filter f xs = [].
Proof.
  induction xs as [|x xs IH]; intros H; simpl; [reflexivity|].
  rewrite (H x (or_introl eq_refl)). apply IH.
  intros y Hy. apply H. now right.
Qed.

Lemma no_arrival_receive (day : Z) (st : SimState) :
  (forall e, In e (pipeline st) -> fst e <> day) ->
  arrivals_on day (pipeline st) = [] /\ receive day st = st.
Proof.
  intros H.
  assert (Harr : arrivals_on day (pipeline st) = []).
  { unfold arrivals_on. rewrite filter_none; [reflexivity|].
    intros e He. apply Z.eqb_neq. now apply H. }
  split; [exact Harr|].
  unfold receive. rewrite Harr. unfold in_transit.
  rewrite filter_all.
  - now destruct st.
  - intros e He. apply negb_true_iff, Z.eqb_neq. now apply H.
Qed.

Lemma overdue_receive (day : Z) (st : SimState) :
  all_overdue day (pipeline st) ->
  arrivals_on day (pipeline st) = [] /\ receive day st = st.
Proof.
  intros H. apply no_arrival_receive. intros e He.
  specialize (H e He). lia.
Qed.

Lemma overdue_step (agent : RetailDecisionAgent) (demand : list R)
    (lead_time_days day : Z) (st st' : SimState) :
  is_key (service_level agent) ->
  (lead_time_days <= 0)%Z ->
  all_overdue day (pipeline st) ->
  simulate_day agent demand lead_time_days st day = Ok st' ->
  all_overdue (day + 1) (pipeline st') /\
  exists new, pipeline st' = pipeline st ++ new.
Proof.
  intros Hkey HL Hover Hday.
  destruct (simulate_day_cases agent demand lead_time_days day st Hkey)
    as [ordered [_ [Hre Hday']]].
  rewrite Hday in Hday'. inversion Hday'. subst st'. clear Hday'.
  destruct (overdue_receive day st Hover) as [_ Hrecv].
  rewrite Hrecv in Hre.
  destruct (reordered_pipeline _ _ _ Hre) as [new [Hpl Hnew]].
  cbn [accrue pipeline]. rewrite consume_pipeline, Hpl.
  split; [|now exists new].
  intros e He. apply in_app_or in He as [He|He].
  - specialize (Hover e He). lia.
  - destruct Hnew as [->|[q [_ ->]]]; [contradiction|].
    destruct He as [<-|[]]. cbn [fst]. lia.
Qed.

Lemma state_before_overdue (demand : list R) (agent : RetailDecisionAgent)
    (initial_inventory : R) (lead_time_days day : Z) :
  is_key (service_level agent) ->
  (lead_time_days <= 0)%Z ->
  (day <= len demand)%Z ->
  exists st,
    state_before day demand agent initial_inventory lead_time_days = Ok st /\
    all_overdue day (pipeline st).
Proof.
  intros Hkey HL Hhi.
  destruct (Z.le_gt_cases day (start_day demand)) as [Hle|Hgt].
  - eexists. split; [now apply state_before_early|].
    intros e [].
  - apply (state_before_invariant demand agent initial_inventory
             lead_time_days (fun d st => all_overdue d (pipeline st)));
      try lia.
    + intros e [].
    + intros d st _ Hover.
      destruct (simulate_day_cases agent demand lead_time_days d st Hkey)
        as [ordered [_ [_ Hday]]].
      eexists. split; [exact Hday|].
      now apply (overdue_step agent demand lead_time_days d st _ Hkey HL Hover).
Qed.

(** C10.  With a lead time of zero or less the simulator applies no floor:
    an order created on a day is due on that day or before, every entry in
    transit is overdue on every day, so no day has an arrival and the
    inventory receives nothing; what is in transit after the reorder check
    of a day is still in transit, and counted in the quantity on order, on
    every later day up to the end of the run. *)
Theorem C10_nonpositive_lead_time_never_arrives (demand : list R)
    (agent : RetailDecisionAgent) (initial_inventory : R)
    (lead_time_days : Z) :
  is_key (service_level agent) ->
  (lead_time_days <= 0)%Z ->
  forall day, (start_day demand <= day < len demand)%Z ->
  exists st ordered,
    state_before day demand agent initial_inventory lead_time_days = Ok st /\
    all_overdue day (pipeline st) /\
    arrivals_on day (pipeline st) = [] /\
    receive day st = st /\
    reorder agent demand lead_time_days day st = Ok ordered /\
    reordered (day + lead_time_days) st ordered /\
    (day + lead_time_days <= day)%Z /\
    forall day', (day < day' <= len demand)%Z ->
      exists st' later,
        state_before day' demand agent initial_inventory lead_time_days
          = Ok st' /\
        pipeline st' = pipeline ordered ++ later /\
        on_order_of (pipeline st') =
          (on_order_of (pipeline ordered) + on_order_of later)%Z /\
        arrivals_on day' (pipeline st') = [] /\
        inventory (receive day' st') = inventory st'.
Proof.
  intros Hkey HL day [Hlo Hhi].
  destruct (state_before_overdue demand agent initial_inventory lead_time_days
              day Hkey HL ltac:(lia)) as [st [Hst Hover]].
  destruct (overdue_receive day st Hover) as [Harr Hrecv].
  destruct (simulate_day_cases agent demand lead_time_days day st Hkey)
    as [ordered [Hord [Hre Hday]]].
  rewrite Hrecv in Hord, Hre.
  exists st, ordered. repeat (split; [assumption|]). split; [lia|].
  intros day' [Hlo' Hhi'].
  destruct (state_before_overdue demand agent initial_inventory lead_time_days
              day' Hkey HL Hhi') as [st' [Hst' Hover']].
  destruct (overdue_receive day' st' Hover') as [Harr' Hrecv'].
  assert (Hgrow : exists later, pipeline st' = pipeline ordered ++ later).
  { apply (state_before_from demand agent initial_inventory lead_time_days
             (fun d s => all_overdue d (pipeline s) /\
                         exists later, pipeline s = pipeline ordered ++ later)
             (day + 1)%Z) with (day := day'); try lia; try exact Hst'.
    - intros s Hs. rewrite state_before_succ, Hst in Hs by exact Hlo.
      cbn [bind] in Hs.
      destruct (overdue_step agent demand lead_time_days day st s
                  Hkey HL Hover Hs) as [Hs_over _].
      split; [exact Hs_over|]. exists [].
      rewrite Hday in Hs. inversion Hs.
      cbn [accrue pipeline]. now rewrite consume_pipeline, app_nil_r.
    - intros d s s' _ _ [Hs_over [later Hlater]] Hstep.
      destruct (overdue_step agent demand lead_time_days d s s'
                  Hkey HL Hs_over Hstep) as [Hs'_over [new Hnew]].
      split; [exact Hs'_over|]. exists (later ++ new).
      now rewrite Hnew, Hlater, app_assoc. }
  destruct Hgrow as [later Hlater].
  exists st', later. split; [exact Hst'|]. split; [exact Hlater|].
  split; [now rewrite Hlater, on_order_of_app|].
  split; [exact Harr'|now rewrite Hrecv'].
Qed.

(** ** Orders that are delivered *)

Lemma in_transit_In (day : Z) (pl : list (Z * Z)) (e : Z * Z) :
  In e (in_transit day pl) <-> In e pl /\ fst e <> day.
Proof.
  unfold in_transit. rewrite filter_In, negb_true_iff, Z.eqb_neq. tauto.
Qed.

Lemma NoDup_map_filter {A B : Type} (f : A -> B) (p : A -> bool) (xs : list A) :
  NoDup (map f xs) -> NoDup (map f (filter p xs)).
Proof.
  induction xs as [|x xs IH]; simpl; intros H; [constructor|].
  inversion H as [|? ? Hnotin Hnodup]. subst.
  destruct (p x); simpl; [|now apply IH].
  constructor; [|now apply IH].
  intros Hin. apply Hnotin. apply in_map_iff in Hin as [y [Hy Hin]].
  apply filter_In in Hin as [Hin _]. apply in_map_iff. now exists y.
Qed.

Lemma arrivals_on_unique (a q : Z) (pl : list (Z * Z)) :
  In (a, q) pl -> NoDup (map fst pl) -> arrivals_on a pl = [q].
Proof.
  unfold arrivals_on. induction pl as [|[a' q'] pl IH]; simpl; [contradiction|].
  intros Hin Hnodup. inversion Hnodup as [|? ? Hnotin Hnodup']. subst.
  destruct Hin as [Heq|Hin].
  - inversion Heq. subst. rewrite Z.eqb_refl. simpl. f_equal.
    rewrite filter_none; [reflexivity|].
    intros e He. apply Z.eqb_neq. intros Hfst. apply Hnotin.
    apply in_map_iff. now exists e.
  - destruct (a' =? a)%Z eqn:E.
    + apply Z.eqb_eq in E. subst a'. exfalso. apply Hnotin.
      apply in_map_iff. now exists (a, q).
    + now apply IH.
Qed.

Lemma due_step (agent : RetailDecisionAgent) (demand : list R)
    (lead_time_days day : Z) (st st' : SimState) :
  is_key (service_level agent) ->
  (1 <= lead_time_days)%Z ->
  due_within day lead_time_days (pipeline st) ->
  simulate_day agent demand lead_time_days st day = Ok st' ->
  due_within (day + 1) lead_time_days (pipeline st').
Proof.
  intros Hkey HL [Hdue Hnodup] Hday.
  destruct (simulate_day_cases agent demand lead_time_days day st Hkey)
    as [ordered [_ [Hre Hday']]].
  rewrite Hday in Hday'. inversion Hday'. subst st'. clear Hday'.
  destruct (reordered_pipeline _ _ _ Hre) as [new [Hpl Hnew]].
  cbn [accrue pipeline]. rewrite consume_pipeline, Hpl.
  cbn [receive pipeline].
  assert (Hkept : forall e, In e (in_transit day (pipeline st)) ->
                            (day + 1 <= fst e < day + lead_time_days)%Z).
  { intros e He. apply in_transit_In in He as [He Hne].
    specialize (Hdue e He). lia. }
  split.
  - intros e He. apply in_app_or in He as [He|He].
    + specialize (Hkept e He). lia.
    + destruct Hnew as [->|[q [_ ->]]]; [contradiction|].
      destruct He as [<-|[]]. cbn [fst]. lia.
  - rewrite map_app.
    destruct Hnew as [->|[q [_ ->]]].
    + rewrite app_nil_r. now apply NoDup_map_filter.
    + apply NoDup_app.
      * now apply NoDup_map_filter.
      * constructor; [intros []|constructor].
      * intros a Ha [<-|[]]. cbn [fst] in Ha.
        apply in_map_iff in Ha as [e [Hfst He]].
        specialize (Hkept e He). lia.
Qed.

Lemma kept_step (agent : RetailDecisionAgent) (demand : list R)
    (lead_time_days day : Z) (st st' : SimState) (e : Z * Z) :
  is_key (service_level agent) ->
  In e (pipeline st) -> fst e <> day ->
  simulate_day agent demand lead_time_days st day = Ok st' ->
  In e (pipeline st').
Proof.
  intros Hkey He Hne Hday.
  destruct (simulate_day_cases agent demand lead_time_days day st Hkey)
    as [ordered [_ [Hre Hday']]].
  rewrite Hday in Hday'. inversion Hday'. subst st'. clear Hday'.
  destruct (reordered_pipeline _ _ _ Hre) as [new [Hpl _]].
  cbn [accrue pipeline]. rewrite consume_pipeline, Hpl.
  apply in_or_app. left. cbn [receive pipeline].
  apply in_transit_In. now split.
Qed.

Lemma state_before_due (demand : list R) (agent : RetailDecisionAgent)
    (initial_inventory : R) (lead_time_days day : Z) :
  is_key (service_level agent) ->
  (1 <= lead_time_days)%Z ->
  (start_day demand <= day <= len demand)%Z ->
  exists st,
    state_before day demand agent initial_inventory lead_time_days = Ok st /\
    due_within day lead_time_days (pipeline st).
Proof.
  intros Hkey HL [Hlo Hhi].
  apply (state_before_invariant demand agent initial_inventory lead_time_days
           (fun d st => due_within d lead_time_days (pipeline st)));
    try assumption.
  - split; [intros e []|constructor].
  - intros d st _ Hdue.
    destruct (simulate_day_cases agent demand lead_time_days d st Hkey)
      as [ordered [_ [_ Hday]]].
    eexists. split; [exact Hday|].
    now apply (due_step agent demand lead_time_days d st _ Hkey HL Hdue).
Qed.

(** C4, amended.  In every run with a lead time of at least one day, an
    order placed on day [d] is delivered on day [d + L] when the run reaches
    that day, and on no other day: until then it stays in transit, on that
    day its quantity is added to the stock on hand and its entry leaves the
    pipeline, and afterwards nothing due on [d + L] is counted as on
    order. *)
Theorem C4_order_arrives_after_lead_time (demand : list R)
    (agent : RetailDecisionAgent) (initial_inventory : R)
    (lead_time_days : Z) :
  is_key (service_level agent) ->
  (1 <= lead_time_days)%Z ->
  delivered_after_lead_time demand agent initial_inventory lead_time_days.
Proof.
  intros Hkey HL d st ordered [Hlo Hhi] Hst Hord Hplaced.
  destruct (simulate_day_cases agent demand lead_time_days d st Hkey)
    as [ordered' [Hord' [Hre Hday]]].
  rewrite Hord in Hord'. inversion Hord'. subst ordered'. clear Hord'.
  destruct Hre as [->|[q [Hq Hordered]]].
  { cbn [receive placed_orders] in Hplaced. lia. }
  exists q. split; [exact Hq|]. split; [exact Hordered|].
  set (due := (d + lead_time_days)%Z).
  intros d' [Hlo' Hhi'].
  destruct (state_before_due demand agent initial_inventory lead_time_days d'
              Hkey HL ltac:(lia)) as [st' [Hst' [Hdue Hnodup]]].
  exists st'. split; [exact Hst'|].
  assert (Hin : (d' <= due)%Z -> In (due, q) (pipeline st')).
  { apply (state_before_from demand agent initial_inventory lead_time_days
             (fun day s => (day <= due)%Z -> In (due, q) (pipeline s))
             (d + 1)%Z) with (day := d'); try lia; try exact Hst'.
    - intros s Hs _. rewrite state_before_succ, Hst in Hs by exact Hlo.
      cbn [bind] in Hs. rewrite Hday in Hs. inversion Hs.
      cbn [accrue pipeline]. rewrite consume_pipeline, Hordered.
      cbn [place_order pipeline]. apply in_or_app. right. now left.
    - intros day s s' Hday_lo _ IH Hstep Hday_hi.
      apply (kept_step agent demand lead_time_days day s s' _ Hkey);
        [apply IH; lia|cbn [fst]; lia|exact Hstep]. }
  split; [|split].
  - intros Hbefore. cbn [receive pipeline]. apply in_transit_In.
    split; [apply Hin; lia|cbn [fst]; lia].
  - intros ->. specialize (Hin (Z.le_refl _)).
    pose proof (arrivals_on_unique due q (pipeline st') Hin Hnodup) as Harr.
    split; [exact Harr|]. split.
    + now rewrite receive_inventory, Harr, sum_int_cons, Z.add_0_r.
    + intros e He. cbn [receive pipeline] in He.
      now apply in_transit_In in He.
  - intros Hafter e He. specialize (Hdue e He). fold due. lia.
Qed.

(** ** Constant demand *)

Lemma firstn_repeat_min {A : Type} (c : A) (k n : nat) :
  firstn k (repeat c n) = repeat c (Nat.min k n).
Proof.
  revert n. induction k as [|k IH]; intros [|n]; simpl; try reflexivity.
  now rewrite IH.
Qed.

Lemma skipn_repeat_sub {A : Type} (c : A) (k n : nat) :
  skipn k (repeat c n) = repeat c (n - k).
Proof.
  revert n. induction k as [|k IH]; intros [|n]; simpl; try reflexivity.
  apply IH.
Qed.

Lemma recent_repeat (c : R) (n : nat) (w : Z) :
  (0 < w)%Z ->
  exists k, match repeat c (S n) with
            | [] => []
            | _ => slice_from (- w) (repeat c (S n))
            end = repeat c (S k).
Proof.
  intros Hw.
  exists (n - Z.to_nat (Z.max 0 (Z.of_nat (S n) + - w)))%nat.
  change (match repeat c (S n) with
          | [] => []
          | _ => slice_from (- w) (repeat c (S n))
          end) with (slice_from (- w) (repeat c (S n))).
  unfold slice_from.
  replace (- w <? 0)%Z with true by (symmetry; apply Z.ltb_lt; lia).
  rewrite skipn_repeat_sub, len_repeat.
  f_equal. lia.
Qed.

(** The decision on a constant history: the forecast is the constant, the
    deviation is zero, and the reorder point and the target stock carry no
    safety stock. *)
Lemma recommend_constant_demand (agent : RetailDecisionAgent) (c : R)
    (n : nat) (on_hand on_order lead : R) :
  is_key (service_level agent) ->
  (0 < demand_window agent)%Z ->
  0 <= c ->
  exists d,
    recommend agent (repeat c (S n)) on_hand on_order (Some [lead]) = Ok d /\
    reorder_point d = c * Rmax 1 lead /\
    target_stock d = c * (Rmax 1 lead + IZR (review_period_days agent)) /\
    recommended_order_qty d =
      Zceil (Rmax 0 (target_stock d - (on_hand + on_order))).
Proof.
  intros Hkey Hw Hc.
  destruct (recommend_returns agent (repeat c (S n)) on_hand on_order
              (Some [lead]) Hkey)
    as [z [d [_ [Hd [Hf [Hs [_ [Hss [Hrop [Htgt Hqty]]]]]]]]]].
  exists d. split; [exact Hd|].
  destruct (recent_repeat c n (demand_window agent) Hw) as [k Hk].
  rewrite Hk in Hf, Hs.
  rewrite forecast_repeat, Rmax_right in Hf by exact Hc.
  rewrite recent_std_repeat in Hs. rewrite mean_singleton in *.
  assert (Hss0 : safety_stock d = 0) by (rewrite Hss, Hs; ring).
  split; [rewrite Hrop, Hf, Hss0; ring|].
  split; [rewrite Htgt, Hf, Hss0; ring|exact Hqty].
Qed.

Lemma Zceil_IZR (n : Z) : Zceil (IZR n) = n.
Proof. apply Zceil_eq. lra. Qed.

(** Day 30 of a run over at least 30 days of demand 20 that starts with no
    stock: nothing is in transit, the net stock 0 is below the reorder point,
    and the whole target stock, 20 units for each day of lead time (at least
    one) and of the review period, is ordered. *)
Lemma first_day_order (n : nat) (lead_time_days q : Z) :
  (30 <= n)%nat ->
  IZR q = 20 * (Rmax 1 (IZR lead_time_days) + 7) ->
  reorder default_agent (repeat 20 n) lead_time_days 30
          (receive 30 (initial_state 0)) =
  Ok (place_order (30 + lead_time_days) q (receive 30 (initial_state 0))).
Proof.
  intros Hn Hq.
  destruct (reorder_cases default_agent (repeat 20 n) lead_time_days 30
              (receive 30 (initial_state 0)) is_key_095)
    as [d [Hd Hcases]].
  change (slice_to 30 (repeat 20 n)) with (firstn 30 (repeat 20 n)) in Hd.
  rewrite firstn_repeat_min in Hd.
  replace (Nat.min 30 n) with (S 29) in Hd by lia.
  change (inventory (receive 30 (initial_state 0))) with 0 in *.
  change (on_order_of (pipeline (receive 30 (initial_state 0)))) with 0%Z in *.
  destruct (recommend_constant_demand default_agent 20 29 0 0
              (IZR lead_time_days) is_key_095 eq_refl ltac:(lra))
    as [d' [Hd' [Hrop [Htgt Hqty]]]].
  rewrite Hd in Hd'. inversion Hd'. subst d'. clear Hd'.
  cbn [default_agent review_period_days] in Htgt.
  pose proof (Rmax_l 1 (IZR lead_time_days)) as Hlead.
  assert (Hqty' : recommended_order_qty d = q).
  { rewrite Hqty, Htgt, Rmax_right by lra.
    replace (20 * (Rmax 1 (IZR lead_time_days) + 7) - (0 + 0)) with (IZR q)
      by lra.
    apply Zceil_IZR. }
  rewrite Hqty' in Hcases.
  destruct Hcases as [[_ [_ Hre]]|[Hno _]]; [exact Hre|].
  exfalso. apply Hno. split; [rewrite Hrop; lra|].
  apply lt_IZR. lra.
Qed.

Lemma zero_lead_time_day_30 :
  reorder default_agent (repeat 20 32) 0 30 (receive 30 (initial_state 0)) =
  Ok (place_order (30 + 0) 160 (receive 30 (initial_state 0))).
Proof.
  apply first_day_order; [lia|]. rewrite Rmax_left by lra. lra.
Qed.

Lemma five_day_lead_time_day_30 :
  reorder default_agent (repeat 20 36) 5 30 (receive 30 (initial_state 0)) =
  Ok (place_order (30 + 5) 240 (receive 30 (initial_state 0))).
Proof.
  apply first_day_order; [lia|]. rewrite Rmax_right by lra. lra.
Qed.

(** C4 as stated fails: with lead time 0 the order placed on day 30 is due
    on day 30, after that day's arrivals; on day 31 it is still in transit,
    and it is never delivered. *)
Lemma C4_zero_lead_time_order_not_delivered :
  ~ delivered_after_lead_time (repeat 20 32) default_agent 0 0.
Proof.
  intros H.
  assert (Hstart : start_day (repeat 20 32) = 30%Z).
  { unfold start_day. rewrite len_repeat. reflexivity. }
  assert (Hst : state_before 30 (repeat 20 32) default_agent 0 0
                = Ok (initial_state 0)).
  { apply state_before_early. rewrite Hstart. lia. }
  destruct (H 30%Z (initial_state 0) _
              ltac:(rewrite Hstart, len_repeat; lia) Hst
              zero_lead_time_day_30 eq_refl)
    as [q [_ [_ Hlater]]].
  destruct (Hlater 31%Z ltac:(rewrite len_repeat; lia))
    as [st' [Hst' [_ [_ Hgone]]]].
  change 31%Z with (30 + 1)%Z in Hst'.
  rewrite state_before_succ, Hst in Hst' by (rewrite Hstart; lia).
  cbn [bind] in Hst'. unfold simulate_day in Hst'.
  rewrite zero_lead_time_day_30 in Hst'. cbn [bind] in Hst'.
  inversion Hst' as [Hst'']. clear Hst'.
  apply (Hgone ltac:(lia) (30, 160)%Z); [|reflexivity].
  rewrite <- Hst''. cbn [accrue pipeline]. rewrite consume_pipeline.
  now left.
Qed.

Lemma start_day_short (c : R) (n : nat) :
  (n <= 92)%nat -> start_day (repeat c n) = 30%Z.
Proof.
  intros Hn. apply start_day_cases. rewrite len_repeat. lia.
Qed.

Lemma C4_order_arrives_after_lead_time_witness :
  exists st',
    state_before 35 (repeat 20 36) default_agent 0 5 = Ok st' /\
    arrivals_on 35 (pipeline st') = [240%Z] /\
    inventory (receive 35 st') = inventory st' + IZR 240 /\
    none_due 35 (pipeline (receive 35 st')).
Proof.
  destruct (C4_order_arrives_after_lead_time (repeat 20 36) default_agent 0 5
              is_key_095 ltac:(lia) 30%Z (initial_state 0)
              (place_order (30 + 5) 240 (receive 30 (initial_state 0))))
    as [q [_ [Hq Hlater]]].
  - rewrite start_day_short, len_repeat by lia. lia.
  - apply state_before_early. rewrite start_day_short by lia. lia.
  - exact five_day_lead_time_day_30.
  - reflexivity.
  - assert (Hq240 : q = 240%Z).
    { apply (f_equal pipeline) in Hq. cbn [place_order pipeline] in Hq.
      apply app_inj_tail in Hq as [_ Hq]. now inversion Hq. }
    subst q.
    destruct (Hlater 35%Z ltac:(rewrite len_repeat; lia))
      as [st' [Hst' [_ [Hdue _]]]].
    exists st'. split; [exact Hst'|]. now apply Hdue.
Defined.

Lemma C10_nonpositive_lead_time_never_arrives_witness :
  exists st ordered,
    state_before 30 (repeat 20 32) default_agent 0 0 = Ok st /\
    arrivals_on 30 (pipeline st) = [] /\
    reorder default_agent (repeat 20 32) 0 30 st = Ok ordered /\
    reordered (30 + 0) st ordered /\
    forall day', (30 < day' <= len (repeat 20 32))%Z ->
      exists st' later,
        state_before day' (repeat 20 32) default_agent 0 0 = Ok st' /\
        pipeline st' = pipeline ordered ++ later /\
        arrivals_on day' (pipeline st') = [] /\
        inventory (receive day' st') = inventory st'.
Proof.
  destruct (C10_nonpositive_lead_time_never_arrives (repeat 20 32)
              default_agent 0 0 is_key_095 ltac:(lia) 30%Z)
    as [st [ordered [Hst [_ [Harr [_ [Hord [Hre [_ Hlater]]]]]]]]].
  - rewrite start_day_short, len_repeat by lia. lia.
  - exists st, ordered. repeat (split; [assumption|]).
    intros day' Hday'.
    destruct (Hlater day' Hday')
      as [st' [later [Hst' [Hpl [_ [Harr' Hinv']]]]]].
    exists st', later. repeat (split; [assumption|]). exact Hinv'.
Defined.

(** ** Series shorter than the warm-up *)

(** With fewer than 30 days of demand the loop visits no day, the counters
    keep their initial values, and the periods reported is [n - 30], below
    zero. *)
Remark short_series_periods (demand : list R) (agent : RetailDecisionAgent)
    (initial_inventory : R) (lead_time_days : Z) :
  (len demand < 30)%Z ->
  range (start_day demand) (len demand) = [] /\
  exists m,
    run_validation demand agent initial_inventory lead_time_days = Ok m /\
    periods m = (len demand - 30)%Z /\
    (periods m < 0)%Z /\
    orders_placed m = 0%Z.
Proof.
  intros Hn.
  assert (Hstart : start_day demand = 30%Z) by (apply start_day_cases; lia).
  split; [apply range_nil; lia|].
  eexists. split.
  - apply run_validation_final. apply state_before_early. lia.
  - cbn [periods orders_placed initial_state placed_orders].
    rewrite Hstart. repeat split. lia.
Qed.

(** * Further properties of the forecast *)

Lemma forecast_level (agent : RetailDecisionAgent) (first : R) (rest : list R) :
  _exp_smoothing_forecast agent (first :: rest) =
  Rmax 0 (smoothed_level (alpha agent) first rest).
Proof. reflexivity. Qed.

Lemma smoothed_level_bounds (a lo hi first : R) (rest : list R) :
  0 <= a <= 1 ->
  lo <= first <= hi ->
  Forall (fun x => lo <= x <= hi) rest ->
  lo <= smoothed_level a first rest <= hi.
Proof.
  intros Ha Hfirst Hrest. unfold smoothed_level.
  revert first Hfirst. induction Hrest as [|x rest Hx _ IH]; intros first Hfirst.
  - exact Hfirst.
  - simpl. apply IH. split; nra.
Qed.

Lemma smoothed_level_app (a first v : R) (rest : list R) :
  smoothed_level a first (rest ++ [v]) =
  a * v + (1 - a) * smoothed_level a first rest.
Proof. unfold smoothed_level. now rewrite fold_left_app. Qed.

Lemma smoothed_level_alpha_0 (first : R) (rest : list R) :
  smoothed_level 0 first rest = first.
Proof.
  unfold smoothed_level. revert first.
  induction rest as [|x rest IH]; intros first; simpl; [reflexivity|].
  rewrite IH. ring.
Qed.

Lemma last_cons_default {A : Type} (first d : A) (rest : list A) :
  last (first :: rest) d = last rest first.
Proof.
  revert first d. induction rest as [|r rest IH]; intros first d; [reflexivity|].
  change (last (first :: r :: rest) d) with (last (r :: rest) d).
  now rewrite (IH r d), (IH r first).
Qed.

Lemma smoothed_level_alpha_1 (first : R) (rest : list R) :
  smoothed_level 1 first rest = last rest first.
Proof.
  unfold smoothed_level. revert first.
  induction rest as [|x rest IH]; intros first; [reflexivity|].
  cbn [fold_left]. rewrite IH.
  replace (1 * x + (1 - 1) * first) with x by ring.
  now rewrite <- (last_cons_default x first rest).
Qed.

(** X2.  With smoothing factor 0 the forecast is the first observation of
    the window whatever follows it, and with smoothing factor 1 it is the
    last one (both clamped at zero). *)
Theorem X2_forecast_extreme_smoothing (agent : RetailDecisionAgent)
    (first : R) (rest : list R) :
  (alpha agent = 0 ->
   _exp_smoothing_forecast agent (first :: rest) = Rmax 0 first) /\
  (alpha agent = 1 ->
   _exp_smoothing_forecast agent (first :: rest) = Rmax 0 (last rest first)).
Proof.
  rewrite forecast_level. split; intros ->.
  - now rewrite smoothed_level_alpha_0.
  - now rewrite smoothed_level_alpha_1.
Qed.

Lemma X2_forecast_extreme_smoothing_witness :
  _exp_smoothing_forecast
    {| service_level := 0.95%Q; review_period_days := 7;
       alpha := 0; demand_window := 28 |} [20; 18; 25] = Rmax 0 20
  /\ _exp_smoothing_forecast
       {| service_level := 0.95%Q; review_period_days := 7;
          alpha := 1; demand_window := 28 |} [20; 18; 25] = Rmax 0 25.
Proof.
  split.
  - apply (X2_forecast_extreme_smoothing
             {| service_level := 0.95%Q; review_period_days := 7;
                alpha := 0; demand_window := 28 |} 20 [18; 25]).
    reflexivity.
  - apply (X2_forecast_extreme_smoothing
             {| service_level := 0.95%Q; review_period_days := 7;
                alpha := 1; demand_window := 28 |} 20 [18; 25]).
    reflexivity.
Defined.

(** X3.  On non-negative observations and with a smoothing factor between 0
    and 1, one more observation [v] moves the forecast by the smoothing
    rule: the new forecast is [alpha * v + (1 - alpha) * old forecast]. *)
Theorem X3_forecast_update (agent : RetailDecisionAgent) (history : list R)
    (v : R) :
  0 <= alpha agent <= 1 ->
  history <> [] ->
  Forall (fun x => 0 <= x) history ->
  0 <= v ->
  _exp_smoothing_forecast agent (history ++ [v]) =
  alpha agent * v + (1 - alpha agent) * _exp_smoothing_forecast agent history.
Proof.
  intros Ha Hne Hall Hv. destruct history as [|first rest]; [contradiction|].
  inversion Hall as [|? ? Hfirst Hrest]. subst.
  change ((first :: rest) ++ [v]) with (first :: (rest ++ [v])).
  rewrite !forecast_level, smoothed_level_app.
  assert (Hlevel : 0 <= smoothed_level (alpha agent) first rest).
  { assert (Hmax : exists hi, first <= hi /\ Forall (fun x => 0 <= x <= hi) rest).
    { clear Hne Hall. induction Hrest as [|x rest Hx _ IH].
      - exists first. split; [lra|constructor].
      - destruct IH as [hi [Hhi Hall]]. exists (Rmax hi x). split.
        + pose proof (Rmax_l hi x). lra.
        + constructor; [pose proof (Rmax_r hi x); lra|].
          apply Forall_impl with (2 := Hall). intros y Hy.
          pose proof (Rmax_l hi x). lra. }
    destruct Hmax as [hi [Hhi Hbound]].
    apply (smoothed_level_bounds _ 0 hi first rest Ha); [lra|exact Hbound]. }
  rewrite (Rmax_right 0 (smoothed_level _ _ rest)) by exact Hlevel.
  apply Rmax_right. nra.
Qed.

Lemma X3_forecast_update_witness :
  _exp_smoothing_forecast default_agent ([20; 18] ++ [25]) =
  alpha default_agent * 25
  + (1 - alpha default_agent) * _exp_smoothing_forecast default_agent [20; 18].
Proof.
  apply (X3_forecast_update default_agent [20; 18] 25).
  - cbn [default_agent alpha]. lra.
  - discriminate.
  - repeat constructor; lra.
  - lra.
Defined.

(** * Further properties of the decision *)

Lemma getitem_cases (sl : Q) :
  is_key sl ->
  ((sl == 0.80)%Q /\ getitem SERVICE_Z sl = Ok 0.84%Q) \/
  ((sl == 0.85)%Q /\ getitem SERVICE_Z sl = Ok 1.04%Q) \/
  ((sl == 0.90)%Q /\ getitem SERVICE_Z sl = Ok 1.28%Q) \/
  ((sl == 0.95)%Q /\ getitem SERVICE_Z sl = Ok 1.65%Q) \/
  ((sl == 0.97)%Q /\ getitem SERVICE_Z sl = Ok 1.88%Q) \/
  ((sl == 0.99)%Q /\ getitem SERVICE_Z sl = Ok 2.33%Q).
Proof.
  intros H. apply contains_is_key in H.
  unfold contains, keys, SERVICE_Z in H. cbn [map fst existsb] in H.
  unfold SERVICE_Z. cbn [getitem].
  repeat match goal with
         | |- context [Qeq_bool sl ?k] =>
             let E := fresh "E" in
             destruct (Qeq_bool sl k) eqn:E;
             [apply Qeq_bool_iff in E; tauto|]
         end.
  discriminate H.
Qed.

Lemma table_factor_positive (sl z : Q) :
  getitem SERVICE_Z sl = Ok z -> 0 < Q2R z.
Proof.
  unfold SERVICE_Z. cbn [getitem].
  repeat match goal with
         | |- context [Qeq_bool sl ?k] =>
             destruct (Qeq_bool sl k);
             [intros H; inversion H; unfold Q2R; cbn; lra|]
         end.
  discriminate.
Qed.

Lemma recent_std_nonneg (history : list R) : 0 <= _recent_std history.
Proof.
  unfold _recent_std. destruct (len history <? 2)%Z; [lra|].
  unfold pstdev. apply sqrt_pos.
Qed.

Lemma forecast_nonneg (agent : RetailDecisionAgent) (history : list R) :
  0 <= _exp_smoothing_forecast agent history.
Proof.
  unfold _exp_smoothing_forecast. destruct history; [lra|apply Rmax_l].
Qed.

(** X4.  Every decision of a constructed agent has a non-negative forecast,
    deviation, safety stock and reorder point and a lead time of at least
    one day; with a review period that is not negative the target stock is
    at least the reorder point. *)
Theorem X4_decision_ranges (sl : Q) (rp : Z) (a : R) (w : Z)
    (agent : RetailDecisionAgent) (history : list R) (on_hand on_order : R)
    (lth : option (list R)) :
  init sl rp a w = Ok agent ->
  exists d,
    recommend agent history on_hand on_order lth = Ok d /\
    0 <= forecast_demand d /\
    0 <= demand_std d /\
    1 <= estimated_lead_time_days d /\
    0 <= safety_stock d /\
    0 <= reorder_point d /\
    ((0 <= rp)%Z -> reorder_point d <= target_stock d).
Proof.
  intros Hinit. apply init_Ok in Hinit as [Hkey ->].
  destruct (recommend_returns
              {| service_level := sl; review_period_days := rp;
                 alpha := a; demand_window := w |}
              history on_hand on_order lth Hkey)
    as [z [d [Hz [Hd [Hf [Hs [Hlt [Hss [Hrop [Htgt _]]]]]]]]]].
  exists d. split; [exact Hd|].
  cbn [service_level review_period_days] in *.
  pose proof (table_factor_positive _ _ Hz) as Hzpos.
  assert (Hf0 : 0 <= forecast_demand d) by (rewrite Hf; apply forecast_nonneg).
  assert (Hs0 : 0 <= demand_std d) by (rewrite Hs; apply recent_std_nonneg).
  assert (Hlt1 : 1 <= estimated_lead_time_days d) by (rewrite Hlt; apply Rmax_l).
  rewrite <- Hlt in Hss, Hrop, Htgt.
  assert (Hss0 : 0 <= safety_stock d).
  { rewrite Hss. apply Rmult_le_pos; [nra|apply sqrt_pos]. }
  repeat split; try assumption.
  - rewrite Hrop. nra.
  - intros Hrp. apply IZR_le in Hrp. rewrite Hrop, Htgt. nra.
Qed.

Lemma X4_decision_ranges_witness :
  exists d,
    recommend default_agent [20; 0; 31] 5 0 None = Ok d /\
    0 <= forecast_demand d /\
    0 <= demand_std d /\
    1 <= estimated_lead_time_days d /\
    0 <= safety_stock d /\
    0 <= reorder_point d /\
    ((0 <= 7)%Z -> reorder_point d <= target_stock d).
Proof.
  apply (X4_decision_ranges 0.95%Q 7 0.35 28 default_agent [20; 0; 31] 5 0 None).
  reflexivity.
Defined.

Lemma skipn_length_app {A : Type} (xs ys : list A) :
  skipn (List.length xs) (xs ++ ys) = ys.
Proof. induction xs as [|x xs IH]; [reflexivity|exact IH]. Qed.

(** X5.  A decision reads only the last [demand_window] observations: when
    the window size is positive, observations older than the window do not
    change any field of the decision. *)
Theorem X5_only_the_window_matters (agent : RetailDecisionAgent)
    (older recent : list R) (on_hand on_order : R) (lth : option (list R)) :
  (0 < demand_window agent)%Z ->
  len recent = demand_window agent ->
  recommend agent (older ++ recent) on_hand on_order lth =
  recommend agent recent on_hand on_order lth.
Proof.
  intros Hw Hlen.
  assert (Hfull : match older ++ recent with
                  | [] => []
                  | _ => slice_from (- demand_window agent) (older ++ recent)
                  end = recent).
  { destruct (older ++ recent) as [|x xs] eqn:E.
    - apply app_eq_nil in E as [_ ->]. reflexivity.
    - rewrite <- E. unfold slice_from.
      replace (- demand_window agent <? 0)%Z with true
        by (symmetry; apply Z.ltb_lt; lia).
      replace (Z.to_nat (Z.max 0 (len (older ++ recent) + - demand_window agent)))
        with (List.length older).
      + apply skipn_length_app.
      + unfold len in *. rewrite length_app. lia. }
  assert (Hrecent : match recent with
                    | [] => []
                    | _ => slice_from (- demand_window agent) recent
                    end = recent).
  { destruct recent as [|x xs] eqn:E; [reflexivity|].
    rewrite <- E. apply slice_from_window; [exact Hw|]. subst recent. lia. }
  unfold recommend. now rewrite Hfull, Hrecent.
Qed.

Lemma X5_only_the_window_matters_witness :
  recommend {| service_level := 0.95%Q; review_period_days := 7;
               alpha := 0.35; demand_window := 2 |}
            ([90; 70] ++ [20; 22]) 5 0 None =
  recommend {| service_level := 0.95%Q; review_period_days := 7;
               alpha := 0.35; demand_window := 2 |}
            [20; 22] 5 0 None.
Proof.
  apply (X5_only_the_window_matters
           {| service_level := 0.95%Q; review_period_days := 7;
              alpha := 0.35; demand_window := 2 |} [90; 70] [20; 22]).
  - reflexivity.
  - reflexivity.
Defined.

Lemma table_monotone (sl1 sl2 z1 z2 : Q) :
  is_key sl1 -> is_key sl2 -> (sl1 <= sl2)%Q ->
  getitem SERVICE_Z sl1 = Ok z1 -> getitem SERVICE_Z sl2 = Ok z2 ->
  Q2R z1 <= Q2R z2.
Proof.
  intros H1 H2 Hle Hz1 Hz2.
  apply getitem_cases in H1. apply getitem_cases in H2.
  repeat (destruct H1 as [[E1 G1]|H1] || destruct H1 as [E1 G1]);
    rewrite G1 in Hz1; inversion Hz1; subst z1; rewrite E1 in Hle;
    repeat (destruct H2 as [[E2 G2]|H2] || destruct H2 as [E2 G2]);
    rewrite G2 in Hz2; inversion Hz2; subst z2; rewrite E2 in Hle;
    try (exfalso; revert Hle; unfold Qle; cbn; lia);
    unfold Q2R; cbn; lra.
Qed.

(** X6.  Two agents that differ only in the service level, on the same
    inputs: the higher service level gives the same forecast, deviation and
    lead time, and a safety stock, reorder point, target stock and
    recommended quantity that are not smaller. *)
Theorem X6_higher_service_level (sl1 sl2 : Q) (rp : Z) (a : R) (w : Z)
    (history : list R) (on_hand on_order : R) (lth : option (list R)) :
  is_key sl1 -> is_key sl2 -> (sl1 <= sl2)%Q ->
  exists d1 d2,
    recommend {| service_level := sl1; review_period_days := rp;
                 alpha := a; demand_window := w |}
              history on_hand on_order lth = Ok d1 /\
    recommend {| service_level := sl2; review_period_days := rp;
                 alpha := a; demand_window := w |}
              history on_hand on_order lth = Ok d2 /\
    forecast_demand d1 = forecast_demand d2 /\
    demand_std d1 = demand_std d2 /\
    estimated_lead_time_days d1 = estimated_lead_time_days d2 /\
    safety_stock d1 <= safety_stock d2 /\
    reorder_point d1 <= reorder_point d2 /\
    target_stock d1 <= target_stock d2 /\
    (recommended_order_qty d1 <= recommended_order_qty d2)%Z.
Proof.
  intros H1 H2 Hle.
  destruct (recommend_returns
              {| service_level := sl1; review_period_days := rp;
                 alpha := a; demand_window := w |}
              history on_hand on_order lth H1)
    as [z1 [d1 [Hz1 [Hd1 [Hf1 [Hs1 [Hlt1 [Hss1 [Hrop1 [Htgt1 Hq1]]]]]]]]]].
  destruct (recommend_returns
              {| service_level := sl2; review_period_days := rp;
                 alpha := a; demand_window := w |}
              history on_hand on_order lth H2)
    as [z2 [d2 [Hz2 [Hd2 [Hf2 [Hs2 [Hlt2 [Hss2 [Hrop2 [Htgt2 Hq2]]]]]]]]]].
  cbn [service_level review_period_days demand_window] in *.
  exists d1, d2. split; [exact Hd1|]. split; [exact Hd2|].
  pose proof (table_monotone _ _ _ _ H1 H2 Hle Hz1 Hz2) as Hz.
  assert (Hf : forecast_demand d1 = forecast_demand d2) by (now rewrite Hf1, Hf2).
  assert (Hs : demand_std d1 = demand_std d2) by (now rewrite Hs1, Hs2).
  assert (Hss : safety_stock d1 <= safety_stock d2).
  { rewrite Hss1, Hss2, Hs.
    apply Rmult_le_compat_r; [apply sqrt_pos|].
    apply Rmult_le_compat_r; [rewrite Hs2; apply recent_std_nonneg|exact Hz]. }
  assert (Htgt : target_stock d1 <= target_stock d2).
  { rewrite Htgt1, Htgt2, Hf. lra. }
  repeat split; try assumption.
  - now rewrite Hlt1, Hlt2.
  - rewrite Hrop1, Hrop2, Hf. lra.
  - rewrite Hq1, Hq2. apply Zceil_le.
    apply Rle_max_compat_l. lra.
Qed.

Lemma X6_higher_service_level_witness :
  exists d1 d2,
    recommend {| service_level := 0.90%Q; review_period_days := 7;
                 alpha := 0.35; demand_window := 28 |}
              [20; 26; 17] 30 0 (Some [5]) = Ok d1 /\
    recommend {| service_level := 0.99%Q; review_period_days := 7;
                 alpha := 0.35; demand_window := 28 |}
              [20; 26; 17] 30 0 (Some [5]) = Ok d2 /\
    forecast_demand d1 = forecast_demand d2 /\
    demand_std d1 = demand_std d2 /\
    estimated_lead_time_days d1 = estimated_lead_time_days d2 /\
    safety_stock d1 <= safety_stock d2 /\
    reorder_point d1 <= reorder_point d2 /\
    target_stock d1 <= target_stock d2 /\
    (recommended_order_qty d1 <= recommended_order_qty d2)%Z.
Proof.
  apply (X6_higher_service_level 0.90%Q 0.99%Q 7 0.35 28 [20; 26; 17] 30 0
           (Some [5])).
  - apply contains_is_key. reflexivity.
  - apply contains_is_key. reflexivity.
  - unfold Qle. cbn. lia.
Defined.

(** X7.  The stock enters a decision only through the recommended quantity:
    with more net stock (on hand plus on order) the forecast, deviation,
    lead time, safety stock, reorder point and target stock are the same and
    the recommended quantity is not larger. *)
Theorem X7_more_stock_smaller_order (agent : RetailDecisionAgent)
    (history : list R) (on_hand1 on_order1 on_hand2 on_order2 : R)
    (lth : option (list R)) :
  is_key (service_level agent) ->
  on_hand1 + on_order1 <= on_hand2 + on_order2 ->
  exists d1 d2,
    recommend agent history on_hand1 on_order1 lth = Ok d1 /\
    recommend agent history on_hand2 on_order2 lth = Ok d2 /\
    forecast_demand d1 = forecast_demand d2 /\
    demand_std d1 = demand_std d2 /\
    estimated_lead_time_days d1 = estimated_lead_time_days d2 /\
    safety_stock d1 = safety_stock d2 /\
    reorder_point d1 = reorder_point d2 /\
    target_stock d1 = target_stock d2 /\
    (recommended_order_qty d2 <= recommended_order_qty d1)%Z.
Proof.
  intros Hkey Hle.
  destruct (recommend_returns agent history on_hand1 on_order1 lth Hkey)
    as [z1 [d1 [Hz1 [Hd1 [Hf1 [Hs1 [Hlt1 [Hss1 [Hrop1 [Htgt1 Hq1]]]]]]]]]].
  destruct (recommend_returns agent history on_hand2 on_order2 lth Hkey)
    as [z2 [d2 [Hz2 [Hd2 [Hf2 [Hs2 [Hlt2 [Hss2 [Hrop2 [Htgt2 Hq2]]]]]]]]]].
  rewrite Hz1 in Hz2. inversion Hz2. subst z2. clear Hz2.
  exists d1, d2. split; [exact Hd1|]. split; [exact Hd2|].
  assert (Hf : forecast_demand d1 = forecast_demand d2) by (now rewrite Hf1, Hf2).
  assert (Hs : demand_std d1 = demand_std d2) by (now rewrite Hs1, Hs2).
  assert (Hss : safety_stock d1 = safety_stock d2) by (now rewrite Hss1, Hss2, Hs).
  assert (Htgt : target_stock d1 = target_stock d2)
    by (now rewrite Htgt1, Htgt2, Hf, Hss).
  repeat split; try assumption.
  - now rewrite Hlt1, Hlt2.
  - now rewrite Hrop1, Hrop2, Hf, Hss.
  - rewrite Hq1, Hq2, Htgt. apply Zceil_le.
    apply Rle_max_compat_l. lra.
Qed.

Lemma X7_more_stock_smaller_order_witness :
  exists d1 d2,
    recommend default_agent [20; 26; 17] 30 0 (Some [5]) = Ok d1 /\
    recommend default_agent [20; 26; 17] 30 45 (Some [5]) = Ok d2 /\
    forecast_demand d1 = forecast_demand d2 /\
    demand_std d1 = demand_std d2 /\
    estimated_lead_time_days d1 = estimated_lead_time_days d2 /\
    safety_stock d1 = safety_stock d2 /\
    reorder_point d1 = reorder_point d2 /\
    target_stock d1 = target_stock d2 /\
    (recommended_order_qty d2 <= recommended_order_qty d1)%Z.
Proof.
  apply (X7_more_stock_smaller_order default_agent [20; 26; 17] 30 0 30 45
           (Some [5])).
  - apply contains_is_key. reflexivity.
  - lra.
Defined.

Lemma getitem_not_key (sl : Q) :
  ~ is_key sl -> getitem SERVICE_Z sl = Raise KeyError.
Proof.
  intros H.
  assert (Hno : contains SERVICE_Z sl = false).
  { destruct (contains SERVICE_Z sl) eqn:E; [|reflexivity].
    apply contains_is_key in E. contradiction. }
  revert Hno. unfold contains, keys.
  induction SERVICE_Z as [|[k v] d IH]; simpl; [reflexivity|].
  destruct (Qeq_bool sl k); [discriminate|exact IH].
Qed.

Lemma range_cons (a b : Z) : (a < b)%Z -> range a b = a :: range (a + 1) b.
Proof.
  intros H. unfold range.
  replace (Z.to_nat (b - a)) with (S (Z.to_nat (b - (a + 1)))) by lia.
  cbn [seq map]. f_equal; [lia|].
  rewrite <- seq_shift, map_map. apply map_ext. intros i. lia.
Qed.

(** X8.  The factor is looked up on every call.  An agent whose service
    level is not a key of the table (the attribute was changed after
    construction) makes [recommend] raise [KeyError] whatever the other
    arguments are, and makes [run_validation] raise [KeyError] as soon as
    there is a day to simulate; with no day to simulate [run_validation]
    returns metrics without calling the agent. *)
Theorem X8_unknown_level_raises_KeyError (agent : RetailDecisionAgent)
    (history demand : list R) (on_hand on_order initial_inventory : R)
    (lth : option (list R)) (lead_time_days : Z) :
  ~ is_key (service_level agent) ->
  recommend agent history on_hand on_order lth = Raise KeyError /\
  ((start_day demand < len demand)%Z ->
   run_validation demand agent initial_inventory lead_time_days
   = Raise KeyError) /\
  ((len demand <= start_day demand)%Z ->
   exists m,
     run_validation demand agent initial_inventory lead_time_days = Ok m /\
     orders_placed m = 0%Z /\ total_shortage_units m = 0).
Proof.
  intros Hkey.
  assert (Hrec : forall h oh oo l, recommend agent h oh oo l = Raise KeyError).
  { intros h oh oo l. unfold recommend.
    now rewrite (getitem_not_key _ Hkey). }
  split; [apply Hrec|]. split.
  - intros Hday. unfold run_validation.
    rewrite (range_cons _ _ Hday). cbn [for_each].
    unfold simulate_day at 1, reorder. now rewrite Hrec.
  - intros Hnone. eexists. split.
    + apply run_validation_final. now apply state_before_early.
    + split; reflexivity.
Qed.

Lemma X8_unknown_level_raises_KeyError_witness :
  recommend {| service_level := 0.93%Q; review_period_days := 7;
               alpha := 0.35; demand_window := 28 |}
            [20; 22] 5 0 None = Raise KeyError.
Proof.
  apply (X8_unknown_level_raises_KeyError
           {| service_level := 0.93%Q; review_period_days := 7;
              alpha := 0.35; demand_window := 28 |}
           [20; 22] [] 5 0 0 None 5).
  exact not_key_093.
Defined.

(** * Further properties of the simulator *)

Lemma consume_counters (demand : list R) (day : Z) (st : SimState) :
  placed_orders (consume demand day st) = placed_orders st /\
  ((inventory st >= demand_on demand day /\
    inventory (consume demand day st) = inventory st - demand_on demand day /\
    stockout_days (consume demand day st) = stockout_days st /\
    total_shortage (consume demand day st) = total_shortage st)
   \/
   (inventory st < demand_on demand day /\
    inventory (consume demand day st) = 0 /\
    stockout_days (consume demand day st) = (stockout_days st + 1)%Z /\
    total_shortage (consume demand day st) =
      total_shortage st + (demand_on demand day - inventory st))).
Proof.
  unfold consume, demand_on.
  destruct (Rge_dec _ _) as [H|H]; cbn; (split; [reflexivity|]).
  - left. repeat split. exact H.
  - right. repeat split. lra.
Qed.

Lemma reordered_counters (arrival : Z) (st st' : SimState) :
  reordered arrival st st' ->
  stockout_days st' = stockout_days st /\
  total_shortage st' = total_shortage st /\
  (placed_orders st <= placed_orders st' <= placed_orders st + 1)%Z.
Proof. intros [->|[q [_ ->]]]; cbn; repeat split; lia. Qed.

Lemma simulate_day_counters (agent : RetailDecisionAgent) (demand : list R)
    (lead_time_days start day : Z) (st st' : SimState) :
  is_key (service_level agent) ->
  counters_ok start day st ->
  simulate_day agent demand lead_time_days st day = Ok st' ->
  counters_ok start (day + 1) st'.
Proof.
  intros Hkey [Hsd [Hpo [Hts [Hzero Hpos]]]] Hday.
  destruct (simulate_day_cases agent demand lead_time_days day st Hkey)
    as [ordered [_ [Hre Hday']]].
  rewrite Hday in Hday'. inversion Hday'. subst st'. clear Hday'.
  destruct (reordered_counters _ _ _ Hre) as [Hsd' [Hts' Hpo']].
  cbn [receive stockout_days total_shortage placed_orders] in Hsd', Hts', Hpo'.
  destruct (consume_counters demand day ordered) as [Hpc Hcases].
  unfold counters_ok. cbn [accrue stockout_days placed_orders total_shortage].
  rewrite Hpc.
  destruct Hcases as [[_ [_ [-> ->]]]|[Hlt [_ [-> ->]]]];
    rewrite Hsd', Hts'.
  - repeat split; try lia; try assumption.
  - assert (Hgain : 0 < total_shortage st + (demand_on demand day - inventory ordered)).
    { destruct (Z.eq_dec (stockout_days st) 0) as [E|E].
      - rewrite (Hzero E). lra.
      - assert (0 < total_shortage st) by (apply Hpos; lia). lra. }
    repeat split; try lia; try lra.
Qed.

Lemma state_before_counters (demand : list R) (agent : RetailDecisionAgent)
    (initial_inventory : R) (lead_time_days day : Z) :
  is_key (service_level agent) ->
  (start_day demand <= day <= len demand)%Z ->
  exists st,
    state_before day demand agent initial_inventory lead_time_days = Ok st /\
    counters_ok (start_day demand) day st.
Proof.
  intros Hkey [Hlo Hhi].
  apply (state_before_invariant demand agent initial_inventory lead_time_days
           (counters_ok (start_day demand))); try assumption.
  - unfold counters_ok. cbn. repeat split; try lia; try lra.
  - intros d st _ Hok.
    destruct (simulate_day_cases agent demand lead_time_days d st Hkey)
      as [ordered [_ [_ Hday]]].
    eexists. split; [exact Hday|].
    now apply (simulate_day_counters agent demand lead_time_days _ d st _ Hkey Hok).
Qed.

(** The state the loop ends in, with what it has counted; a series shorter
    than the start day leaves the initial state. *)
Lemma final_counters (demand : list R) (agent : RetailDecisionAgent)
    (initial_inventory : R) (lead_time_days : Z) :
  is_key (service_level agent) ->
  exists final,
    state_before (len demand) demand agent initial_inventory lead_time_days
      = Ok final /\
    (0 <= stockout_days final <= len (range (start_day demand) (len demand)))%Z /\
    (0 <= placed_orders final <= len (range (start_day demand) (len demand)))%Z /\
    0 <= total_shortage final /\
    ((stockout_days final = 0)%Z <-> total_shortage final = 0).
Proof.
  intros Hkey. rewrite length_range.
  destruct (Z.le_gt_cases (start_day demand) (len demand)) as [Hle|Hgt].
  - destruct (state_before_counters demand agent initial_inventory
                lead_time_days (len demand) Hkey ltac:(lia))
      as [final [Hfinal [Hsd [Hpo [Hts [Hzero Hpos]]]]]].
    exists final. split; [exact Hfinal|]. repeat split; try lia; try assumption.
    intros Hts0. destruct (Z.eq_dec (stockout_days final) 0) as [E|E]; [exact E|].
    assert (0 < total_shortage final) by (apply Hpos; lia). lra.
  - exists (initial_state initial_inventory).
    split; [apply state_before_early; lia|]. cbn. repeat split; try lia; lra.
Qed.

Lemma run_validation_counters (demand : list R) (agent : RetailDecisionAgent)
    (initial_inventory : R) (lead_time_days : Z) :
  is_key (service_level agent) ->
  exists final m,
    run_validation demand agent initial_inventory lead_time_days = Ok m /\
    periods m = (len demand - start_day demand)%Z /\
    stockout_rate m =
      (if (periods m =? 0)%Z then 0
       else IZR (stockout_days final) / IZR (periods m)) /\
    total_shortage_units m = total_shortage final /\
    orders_placed m = placed_orders final /\
    (0 <= stockout_days final <= Z.max 0 (periods m))%Z /\
    (0 <= placed_orders final <= Z.max 0 (periods m))%Z /\
    0 <= total_shortage final /\
    ((stockout_days final = 0)%Z <-> total_shortage final = 0).
Proof.
  intros Hkey.
  destruct (final_counters demand agent initial_inventory lead_time_days Hkey)
    as [final [Hfinal [Hsd [Hpo [Hts Hiff]]]]].
  rewrite length_range in Hsd, Hpo.
  exists final. eexists.
  split; [apply (run_validation_final _ _ _ _ _ Hfinal)|].
  cbn [periods stockout_rate total_shortage_units orders_placed].
  repeat split; try lia; try assumption; apply Hiff.
Qed.

(** X9.  The stockout rate of every run is a fraction: the stockout days
    are counted at most once per simulated day, so the rate lies between 0
    and 1 (and is 0 when no day is simulated). *)
Theorem X9_stockout_rate_is_a_fraction (demand : list R)
    (agent : RetailDecisionAgent) (initial_inventory : R)
    (lead_time_days : Z) :
  is_key (service_level agent) ->
  exists m,
    run_validation demand agent initial_inventory lead_time_days = Ok m /\
    0 <= stockout_rate m <= 1.
Proof.
  intros Hkey.
  destruct (run_validation_counters demand agent initial_inventory
              lead_time_days Hkey)
    as [final [m [Hm [_ [Hrate [_ [_ [Hsd _]]]]]]]].
  exists m. split; [exact Hm|]. rewrite Hrate.
  destruct (periods m =? 0)%Z eqn:E; [lra|]. apply Z.eqb_neq in E.
  destruct (Z.lt_trichotomy (periods m) 0) as [Hneg|[Hz|Hpos]];
    [|contradiction|].
  - replace (stockout_days final) with 0%Z by lia.
    unfold Rdiv. rewrite Rmult_0_l. lra.
  - assert (Hp : 0 < IZR (periods m)) by now apply IZR_lt.
    assert (H0 : 0 <= IZR (stockout_days final)) by (apply IZR_le; lia).
    assert (H1 : IZR (stockout_days final) <= IZR (periods m))
      by (apply IZR_le; lia).
    split.
    + apply Rmult_le_pos; [exact H0|]. now apply Rlt_le, Rinv_0_lt_compat.
    + apply (Rmult_le_reg_r (IZR (periods m))); [exact Hp|].
      unfold Rdiv. rewrite Rmult_assoc, Rinv_l by lra. lra.
Qed.

Lemma X9_stockout_rate_is_a_fraction_witness :
  exists m,
    run_validation (repeat 20 50) default_agent 0 5 = Ok m /\
    0 <= stockout_rate m <= 1.
Proof.
  apply (X9_stockout_rate_is_a_fraction (repeat 20 50) default_agent 0 5).
  apply contains_is_key. reflexivity.
Defined.

(** X10.  At most one order is placed per simulated day: the number of
    orders placed lies between 0 and the number of simulated days, which
    from 30 days of demand on is the periods reported. *)
Theorem X10_orders_placed_bounded (demand : list R)
    (agent : RetailDecisionAgent) (initial_inventory : R)
    (lead_time_days : Z) :
  is_key (service_level agent) ->
  exists m,
    run_validation demand agent initial_inventory lead_time_days = Ok m /\
    (0 <= orders_placed m <= len (range (start_day demand) (len demand)))%Z /\
    ((30 <= len demand)%Z -> (orders_placed m <= periods m)%Z).
Proof.
  intros Hkey.
  destruct (run_validation_counters demand agent initial_inventory
              lead_time_days Hkey)
    as [final [m [Hm [Hp [_ [_ [Hpo [_ [Hbound _]]]]]]]]].
  exists m. split; [exact Hm|]. rewrite length_range, Hpo, <- Hp.
  split; [exact Hbound|]. intros Hn.
  assert (Hdiv : (len demand / 3 <= len demand)%Z)
    by (apply Z.div_le_upper_bound; lia).
  unfold start_day in Hp. lia.
Qed.

Lemma X10_orders_placed_bounded_witness :
  exists m,
    run_validation (repeat 20 50) default_agent 0 5 = Ok m /\
    (0 <= orders_placed m
     <= len (range (start_day (repeat 20%R 50)) (len (repeat 20%R 50))))%Z /\
    ((30 <= len (repeat 20%R 50))%Z -> (orders_placed m <= periods m)%Z).
Proof.
  apply (X10_orders_placed_bounded (repeat 20 50) default_agent 0 5).
  apply contains_is_key. reflexivity.
Defined.

(** X11.  The accumulated shortage is never negative, and it is zero
    exactly when the run had no stockout day, that is when the stockout
    rate is zero: a stockout day always loses a positive amount. *)
Theorem X11_shortage_and_stockouts (demand : list R)
    (agent : RetailDecisionAgent) (initial_inventory : R)
    (lead_time_days : Z) :
  is_key (service_level agent) ->
  exists m,
    run_validation demand agent initial_inventory lead_time_days = Ok m /\
    0 <= total_shortage_units m /\
    (total_shortage_units m = 0 <-> stockout_rate m = 0).
Proof.
  intros Hkey.
  destruct (run_validation_counters demand agent initial_inventory
              lead_time_days Hkey)
    as [final [m [Hm [_ [Hrate [Hts [_ [Hsd [_ [Hnonneg Hiff]]]]]]]]]].
  exists m. split; [exact Hm|]. rewrite Hts, Hrate.
  split; [exact Hnonneg|]. rewrite <- Hiff.
  destruct (periods m =? 0)%Z eqn:E.
  - apply Z.eqb_eq in E. split; [reflexivity|lia].
  - apply Z.eqb_neq in E. split.
    + intros ->. unfold Rdiv. now rewrite Rmult_0_l.
    + intros H0. apply eq_IZR.
      apply Rmult_integral in H0 as [H0|H0]; [exact H0|].
      exfalso. apply (Rinv_neq_0_compat (IZR (periods m))); [|exact H0].
      now apply not_0_IZR.
Qed.

Lemma X11_shortage_and_stockouts_witness :
  exists m,
    run_validation (repeat 20 50) default_agent 0 5 = Ok m /\
    0 <= total_shortage_units m /\
    (total_shortage_units m = 0 <-> stockout_rate m = 0).
Proof.
  apply (X11_shortage_and_stockouts (repeat 20 50) default_agent 0 5).
  apply contains_is_key. reflexivity.
Defined.

(** X12.  With a lead time of [L >= 1] days at most [L] orders are in
    transit whenever the loop reaches a day, and no two of them are due on
    the same day: overlapping orders are possible, but never more than one
    per day of lead time. *)
Theorem X12_open_orders_bounded (demand : list R)
    (agent : RetailDecisionAgent) (initial_inventory : R)
    (lead_time_days day : Z) :
  is_key (service_level agent) ->
  (1 <= lead_time_days)%Z ->
  (start_day demand <= day <= len demand)%Z ->
  exists st,
    state_before day demand agent initial_inventory lead_time_days = Ok st /\
    (len (pipeline st) <= lead_time_days)%Z /\
    NoDup (map fst (pipeline st)).
Proof.
  intros Hkey HL Hday.
  destruct (state_before_due demand agent initial_inventory lead_time_days
              day Hkey HL Hday) as [st [Hst [Hdue Hnodup]]].
  exists st. split; [exact Hst|]. split; [|exact Hnodup].
  assert (Hincl : incl (map fst (pipeline st))
                       (range day (day + lead_time_days))).
  { intros a Ha. apply in_map_iff in Ha as [e [<- He]].
    apply in_range. now apply Hdue. }
  pose proof (NoDup_incl_length Hnodup Hincl) as Hlen.
  rewrite length_map in Hlen.
  pose proof (length_range day (day + lead_time_days)) as Hrange.
  unfold len in *. lia.
Qed.

Lemma X12_open_orders_bounded_witness :
  exists st,
    state_before 36 (repeat 20 36) default_agent 0 5 = Ok st /\
    (len (pipeline st) <= 5)%Z /\
    NoDup (map fst (pipeline st)).
Proof.
  apply (X12_open_orders_bounded (repeat 20 36) default_agent 0 5 36).
  - apply contains_is_key. reflexivity.
  - lia.
  - rewrite start_day_short, len_repeat by lia. lia.
Defined.

Lemma overdue_count_step (agent : RetailDecisionAgent) (demand : list R)
    (lead_time_days day : Z) (st st' : SimState) :
  is_key (service_level agent) ->
  (lead_time_days <= 0)%Z ->
  all_overdue day (pipeline st) ->
  len (pipeline st) = placed_orders st ->
  simulate_day agent demand lead_time_days st day = Ok st' ->
  len (pipeline st') = placed_orders st'.
Proof.
  intros Hkey HL Hover Hcount Hday.
  destruct (simulate_day_cases agent demand lead_time_days day st Hkey)
    as [ordered [_ [Hre Hday']]].
  rewrite Hday in Hday'. inversion Hday'. subst st'. clear Hday'.
  destruct (overdue_receive day st Hover) as [_ Hrecv].
  rewrite Hrecv in Hre.
  destruct (consume_counters demand day ordered) as [Hpc _].
  cbn [accrue pipeline placed_orders]. rewrite consume_pipeline, Hpc.
  destruct Hre as [->|[q [_ ->]]]; [exact Hcount|].
  cbn [place_order pipeline placed_orders]. unfold len in *.
  rewrite length_app. cbn [List.length]. lia.
Qed.

(** X13.  With a lead time of zero or less every order ever placed is
    still in transit at the end of the run: the number of orders placed is
    the number of entries left in the pipeline. *)
Theorem X13_undelivered_orders_accumulate (demand : list R)
    (agent : RetailDecisionAgent) (initial_inventory : R)
    (lead_time_days : Z) :
  is_key (service_level agent) ->
  (lead_time_days <= 0)%Z ->
  exists final m,
    state_before (len demand) demand agent initial_inventory lead_time_days
      = Ok final /\
    run_validation demand agent initial_inventory lead_time_days = Ok m /\
    orders_placed m = len (pipeline final).
Proof.
  intros Hkey HL.
  assert (Hfinal : exists final,
             state_before (len demand) demand agent initial_inventory
                          lead_time_days = Ok final /\
             len (pipeline final) = placed_orders final).
  { destruct (Z.le_gt_cases (start_day demand) (len demand)) as [Hle|Hgt].
    - destruct (state_before_invariant demand agent initial_inventory
                  lead_time_days
                  (fun d st => all_overdue d (pipeline st) /\
                               len (pipeline st) = placed_orders st))
        with (day := len demand) as [final [Hfinal [_ Hcount]]];
        try lia.
      + split; [intros e []|reflexivity].
      + intros d st _ [Hover Hcount].
        destruct (simulate_day_cases agent demand lead_time_days d st Hkey)
          as [ordered [_ [_ Hday]]].
        eexists. split; [exact Hday|]. split.
        * now apply (overdue_step agent demand lead_time_days d st _
                       Hkey HL Hover).
        * now apply (overdue_count_step agent demand lead_time_days d st _
                       Hkey HL Hover Hcount).
      + now exists final.
    - exists (initial_state initial_inventory).
      split; [apply state_before_early; lia|reflexivity]. }
  destruct Hfinal as [final [Hfinal Hcount]].
  exists final. eexists. split; [exact Hfinal|].
  split; [apply (run_validation_final _ _ _ _ _ Hfinal)|].
  cbn [orders_placed]. now rewrite Hcount.
Qed.

Lemma X13_undelivered_orders_accumulate_witness :
  exists final m,
    state_before (len (repeat 20 32)) (repeat 20 32) default_agent 0 0
      = Ok final /\
    run_validation (repeat 20 32) default_agent 0 0 = Ok m /\
    orders_placed m = len (pipeline final).
Proof.
  apply (X13_undelivered_orders_accumulate (repeat 20 32) default_agent 0 0).
  - apply contains_is_key. reflexivity.
  - lia.
Defined.

(** ** Stock on hand without deliveries *)

Lemma demand_on_nonneg (demand : list R) (day : Z) :
  Forall (fun x => 0 <= x) demand -> 0 <= demand_on demand day.
Proof.
  intros H. unfold demand_on.
  destruct (nth_in_or_default (Z.to_nat day) demand 0) as [Hin| ->]; [|lra].
  rewrite Forall_forall in H. now apply H.
Qed.

(** A day without an arrival takes the day's demand from the stock on hand,
    or empties it, and adds nothing. *)
Lemma no_delivery_step (agent : RetailDecisionAgent) (demand : list R)
    (lead_time_days day : Z) (st st' : SimState) :
  is_key (service_level agent) ->
  all_overdue day (pipeline st) ->
  0 <= inventory st ->
  0 <= demand_on demand day ->
  simulate_day agent demand lead_time_days st day = Ok st' ->
  0 <= inventory st' <= inventory st.
Proof.
  intros Hkey Hover Hinv Hdem Hday.
  destruct (simulate_day_cases agent demand lead_time_days day st Hkey)
    as [ordered [_ [Hre Hday']]].
  rewrite Hday in Hday'. inversion Hday'. subst st'. clear Hday'.
  destruct (overdue_receive day st Hover) as [_ Hrecv].
  rewrite Hrecv in Hre.
  destruct (reordered_inventory _ _ _ Hre) as [Hi _].
  cbn [accrue inventory].
  destruct (consume_counters demand day ordered)
    as [_ [[Hge [-> _]]|[Hlt [-> _]]]]; lra.
Qed.

Lemma stock_falls_from (demand : list R) (agent : RetailDecisionAgent)
    (initial_inventory : R) (lead_time_days d day : Z) (st st' : SimState) :
  is_key (service_level agent) ->
  (lead_time_days <= 0)%Z ->
  Forall (fun x => 0 <= x) demand ->
  (start_day demand <= d <= day)%Z ->
  state_before d demand agent initial_inventory lead_time_days = Ok st ->
  all_overdue d (pipeline st) ->
  0 <= inventory st ->
  state_before day demand agent initial_inventory lead_time_days = Ok st' ->
  0 <= inventory st' <= inventory st.
Proof.
  intros Hkey HL Hdemand [Hd Hday] Hst Hover Hinv Hst'.
  apply (state_before_from demand agent initial_inventory lead_time_days
           (fun d0 s => all_overdue d0 (pipeline s) /\
                        0 <= inventory s <= inventory st) d Hd)
    with (day := day) (st := st'); [| |exact Hday|exact Hst'].
  - intros s Hs. rewrite Hst in Hs. inversion Hs. subst s.
    split; [exact Hover|lra].
  - intros d0 s s' _ _ [Hover0 Hb] Hstep. split.
    + now apply (overdue_step agent demand lead_time_days d0 s s'
                   Hkey HL Hover0).
    + pose proof (no_delivery_step agent demand lead_time_days d0 s s' Hkey
                    Hover0 (proj1 Hb) (demand_on_nonneg demand d0 Hdemand)
                    Hstep).
      lra.
Qed.

(** X14.  With a lead time of zero or less nothing is ever delivered, so the
    stock on hand only falls: when the initial inventory and every demand
    are non-negative, the stock at the start of a later day is never above
    the stock at the start of an earlier day, never above the initial
    inventory and never below zero. *)
Theorem X14_stock_only_falls_without_deliveries (demand : list R)
    (agent : RetailDecisionAgent) (initial_inventory : R)
    (lead_time_days day day' : Z) :
  is_key (service_level agent) ->
  (lead_time_days <= 0)%Z ->
  0 <= initial_inventory ->
  Forall (fun x => 0 <= x) demand ->
  (day <= day' <= len demand)%Z ->
  exists st st',
    state_before day demand agent initial_inventory lead_time_days = Ok st /\
    state_before day' demand agent initial_inventory lead_time_days = Ok st' /\
    0 <= inventory st' <= inventory st /\
    inventory st <= initial_inventory.
Proof.
  intros Hkey HL Hinv Hdemand [Hdd Hhi].
  assert (Hstart : state_before (start_day demand) demand agent
                     initial_inventory lead_time_days
                   = Ok (initial_state initial_inventory))
    by (apply state_before_early; lia).
  assert (Hfrom_start : forall d st,
             (d <= len demand)%Z ->
             state_before d demand agent initial_inventory lead_time_days
             = Ok st ->
             all_overdue d (pipeline st) ->
             0 <= inventory st <= initial_inventory).
  { intros d st Hd Hst Hover.
    destruct (Z.le_gt_cases d (start_day demand)) as [Hle|Hgt].
    - rewrite state_before_early in Hst by exact Hle.
      inversion Hst. cbn [initial_state inventory]. lra.
    - apply (stock_falls_from demand agent initial_inventory lead_time_days
               (start_day demand) d (initial_state initial_inventory) st
               Hkey HL Hdemand); try assumption; try lia.
      intros e []. }
  destruct (state_before_overdue demand agent initial_inventory
              lead_time_days day Hkey HL ltac:(lia)) as [st [Hst Hover]].
  destruct (state_before_overdue demand agent initial_inventory
              lead_time_days day' Hkey HL Hhi) as [st' [Hst' Hover']].
  pose proof (Hfrom_start day st ltac:(lia) Hst Hover) as Hb.
  pose proof (Hfrom_start day' st' Hhi Hst' Hover') as Hb'.
  exists st, st'. split; [exact Hst|]. split; [exact Hst'|].
  split; [|lra].
  destruct (Z.le_gt_cases day (start_day demand)) as [Hle|Hgt].
  - rewrite state_before_early in Hst by exact Hle.
    inversion Hst. cbn [initial_state inventory]. lra.
  - apply (stock_falls_from demand agent initial_inventory lead_time_days
             day day' st st' Hkey HL Hdemand); try assumption; try lia. lra.
Qed.

Lemma X14_stock_only_falls_without_deliveries_witness :
  exists st st',
    state_before 31 (repeat 20 36) default_agent 100 0 = Ok st /\
    state_before 36 (repeat 20 36) default_agent 100 0 = Ok st' /\
    0 <= inventory st' <= inventory st /\
    inventory st <= 100.
Proof.
  apply (X14_stock_only_falls_without_deliveries
           (repeat 20 36) default_agent 100 0 31 36).
  - apply contains_is_key. reflexivity.
  - lia.
  - lra.
  - apply all_nonneg_repeat. lra.
  - rewrite len_repeat. lia.
Defined.

(** ** The reorder check *)




(** * The synthetic demand *)

(** X17.  The synthetic series has one observation per requested day (none
    when [days] is zero or negative) and none of them is negative, whatever
    the random draws are; the default of 120 days makes [run_validation]
    start on day 40 and report 80 periods. *)
Theorem X17_synthetic_demand (gauss : Z -> Z -> R) (days seed : Z)
    (agent : RetailDecisionAgent) (initial_inventory : R)
    (lead_time_days : Z) :
  is_key (service_level agent) ->
  len (generate_synthetic_demand gauss days seed) = Z.max 0 days /\
  Forall (fun x => 0 <= x) (generate_synthetic_demand gauss days seed) /\
  (days = 120%Z ->
   start_day (generate_synthetic_demand gauss days seed) = 40%Z /\
   exists m,
     run_validation (generate_synthetic_demand gauss days seed) agent
                    initial_inventory lead_time_days = Ok m /\
     periods m = 80%Z).
Proof.
  intros Hkey.
  assert (Hlen : len (generate_synthetic_demand gauss days seed) = Z.max 0 days).
  { unfold generate_synthetic_demand, len. rewrite length_map.
    pose proof (length_range 0 days) as H. unfold len in H. lia. }
  split; [exact Hlen|]. split.
  - unfold generate_synthetic_demand. apply Forall_map, Forall_forall.
    intros d _. apply Rmax_l.
  - intros ->.
    assert (Hstart : start_day (generate_synthetic_demand gauss 120 seed) = 40%Z).
    { unfold start_day. rewrite Hlen. reflexivity. }
    split; [exact Hstart|].
    destruct (run_validation_returns (generate_synthetic_demand gauss 120 seed)
                agent initial_inventory lead_time_days Hkey)
      as [final [m [_ [Hm [Hp _]]]]].
    exists m. split; [exact Hm|]. rewrite Hp, Hstart, Hlen. reflexivity.
Qed.

Lemma X17_synthetic_demand_witness :
  len (generate_synthetic_demand (fun _ _ => 0) 120 42) = Z.max 0 120 /\
  Forall (fun x => 0 <= x) (generate_synthetic_demand (fun _ _ => 0) 120 42) /\
  (120%Z = 120%Z ->
   start_day (generate_synthetic_demand (fun _ _ => 0) 120 42) = 40%Z /\
   exists m,
     run_validation (generate_synthetic_demand (fun _ _ => 0) 120 42)
                    default_agent 120 5 = Ok m /\
     periods m = 80%Z).
Proof.
  apply (X17_synthetic_demand (fun _ _ => 0) 120 42 default_agent 120 5).
  apply contains_is_key. reflexivity.
Defined.

(** * Edge cases of the window *)

(** X18.  A window size of 0 does not give an empty window:
    [demand_history[-0:]] is the whole history, so the decision is the one
    of an agent whose window is as long as the history. *)
Theorem X18_zero_window_reads_everything (sl : Q) (rp : Z) (a : R)
    (history : list R) (on_hand on_order : R) (lth : option (list R)) :
  history <> [] ->
  recommend {| service_level := sl; review_period_days := rp;
               alpha := a; demand_window := 0 |}
            history on_hand on_order lth =
  recommend {| service_level := sl; review_period_days := rp;
               alpha := a; demand_window := len history |}
            history on_hand on_order lth.
Proof.
  intros Hne.
  assert (Hzero : match history with
                  | [] => []
                  | _ => slice_from (- 0) history
                  end = history) by (now destruct history).
  assert (Hall : match history with
                 | [] => []
                 | _ => slice_from (- len history) history
                 end = history).
  { destruct history as [|x xs] eqn:E; [reflexivity|]. rewrite <- E.
    apply slice_from_window; [subst; unfold len; cbn [List.length]|]; lia. }
  unfold recommend.
  cbn [demand_window service_level alpha review_period_days].
  now rewrite Hzero, Hall.
Qed.

Lemma X18_zero_window_reads_everything_witness :
  recommend {| service_level := 0.95%Q; review_period_days := 7;
               alpha := 0.35; demand_window := 0 |}
            [20; 26; 17] 30 0 None =
  recommend {| service_level := 0.95%Q; review_period_days := 7;
               alpha := 0.35; demand_window := len [20; 26; 17] |}
            [20; 26; 17] 30 0 None.
Proof.
  apply (X18_zero_window_reads_everything 0.95%Q 7 0.35 [20; 26; 17] 30 0 None).
  discriminate.
Defined.

(** X19.  With a single observation [x] and a window size that is not
    negative, the forecast is [max(0, x)], the deviation and the safety
    stock are zero, and the reorder point is the forecast times the lead
    time. *)
Theorem X19_single_observation (agent : RetailDecisionAgent) (x : R)
    (on_hand on_order : R) (lth : option (list R)) :
  is_key (service_level agent) ->
  (0 <= demand_window agent)%Z ->
  exists d,
    recommend agent [x] on_hand on_order lth = Ok d /\
    forecast_demand d = Rmax 0 x /\
    demand_std d = 0 /\
    safety_stock d = 0 /\
    reorder_point d = Rmax 0 x * estimated_lead_time_days d.
Proof.
  intros Hkey Hw.
  destruct (recommend_returns agent [x] on_hand on_order lth Hkey)
    as [z [d [_ [Hd [Hf [Hs [Hlt [Hss [Hrop _]]]]]]]]].
  exists d. split; [exact Hd|].
  assert (Hrecent : slice_from (- demand_window agent) [x] = [x]).
  { destruct (Z.eq_dec (demand_window agent) 0) as [->|Hne]; [reflexivity|].
    apply slice_from_window; [lia|]. unfold len. cbn. lia. }
  rewrite Hrecent in Hf, Hs. cbn in Hf, Hs. rewrite <- Hlt in Hss, Hrop.
  assert (Hss0 : safety_stock d = 0) by (rewrite Hss, Hs; ring).
  repeat split; try assumption. rewrite Hrop, Hf, Hss0. ring.
Qed.

Lemma X19_single_observation_witness :
  exists d,
    recommend default_agent [20] 5 0 None = Ok d /\
    forecast_demand d = Rmax 0 20 /\
    demand_std d = 0 /\
    safety_stock d = 0 /\
    reorder_point d = Rmax 0 20 * estimated_lead_time_days d.
Proof.
  apply (X19_single_observation default_agent 20 5 0 None).
  - apply contains_is_key. reflexivity.
  - cbn. lia.
Defined.

(** * The recommended quantity in binary64 *)

Section Binary64Facts.
Import Floats Qround Qpower.
Local Open Scope float_scope.

Lemma digits2_pos_bounds (m : positive) :
  (2 ^ (Zpos (digits2_pos m) - 1) <= Zpos m < 2 ^ Zpos (digits2_pos m))%Z.
Proof.
  induction m as [m IH|m IH|]; cbn [digits2_pos].
  - rewrite Pos2Z.inj_succ.
    replace (Z.succ (Zpos (digits2_pos m)) - 1)%Z with (Zpos (digits2_pos m) - 1 + 1)%Z by lia.
    rewrite Z.pow_succ_r by lia.
    rewrite Z.pow_add_r by lia. change (2 ^ 1)%Z with 2%Z. lia.
  - rewrite Pos2Z.inj_succ.
    replace (Z.succ (Zpos (digits2_pos m)) - 1)%Z with (Zpos (digits2_pos m) - 1 + 1)%Z by lia.
    rewrite Z.pow_succ_r by lia.
    rewrite Z.pow_add_r by lia. change (2 ^ 1)%Z with 2%Z. lia.
  - cbn. lia.
Qed.

Lemma iter_xO (m d : positive) :
  Zpos (Pos.iter xO m d) = (Zpos m * 2 ^ Zpos d)%Z.
Proof.
  revert m. induction d as [|d IH] using Pos.peano_ind; intros m.
  - cbn. lia.
  - rewrite Pos.iter_succ, Pos2Z.inj_succ, Z.pow_succ_r by lia.
    rewrite Pos2Z.inj_xO, IH. lia.
Qed.

Lemma shl_align_value (m : positive) (e ez : Z) :
  (ez <= e)%Z ->
  Zpos (fst (shl_align m e ez)) = (Zpos m * 2 ^ (e - ez))%Z.
Proof.
  intros H. unfold shl_align.
  destruct (ez - e)%Z as [|p|p] eqn:E.
  - replace (e - ez)%Z with 0%Z by lia. cbn [fst]. lia.
  - lia.
  - cbn [fst]. rewrite iter_xO. f_equal. f_equal. lia.
Qed.

(** A valid finite float has at most [prec] digits, and exactly [prec] of
    them above the smallest exponent. *)
Lemma bounded_digits (m : positive) (e : Z) :
  bounded prec emax m e = true ->
  (Zpos (digits2_pos m) <= 53)%Z /\ (-1074 <= e)%Z /\
  ((-1074 < e)%Z -> Zpos (digits2_pos m) = 53%Z).
Proof.
  unfold bounded, canonical_mantissa, fexp, emin, prec, emax.
  intros H. apply andb_true_iff in H as [H _]. apply Z.eqb_eq in H.
  lia.
Qed.

Lemma normalize_not_positive (D e : Z) :
  (D <= 0)%Z ->
  SFltb (S754_zero false) (binary_normalize prec emax D e false) = false.
Proof.
  intros HD. destruct D as [|p|p]; [reflexivity|lia|].
  cbn [binary_normalize]. unfold binary_round.
  destruct (shl_align p e _) as [mz ez]. unfold binary_round_aux.
  destruct (shr_fexp _ _ _ _ _) as [mrs' e'].
  destruct (shr_fexp _ _ _ _ _) as [mrs'' e''].
  destruct (shr_m mrs''); [reflexivity| |reflexivity].
  destruct (Z.leb _ _); reflexivity.
Qed.

Lemma aligned_lt (mx my : positive) (ex ey : Z) :
  bounded prec emax mx ex = true -> bounded prec emax my ey = true ->
  (ex < ey)%Z ->
  (Zpos (fst (shl_align mx ex (Z.min ex ey)))
   < Zpos (fst (shl_align my ey (Z.min ex ey))))%Z.
Proof.
  intros Hx Hy Hlt.
  rewrite !shl_align_value by lia.
  replace (Z.min ex ey) with ex by lia.
  replace (ex - ex)%Z with 0%Z by lia.
  destruct (bounded_digits _ _ Hx) as [Hdx [Hex _]].
  destruct (bounded_digits _ _ Hy) as [_ [_ Hdy]].
  specialize (Hdy ltac:(lia)).
  pose proof (digits2_pos_bounds mx) as [_ Hmx].
  pose proof (digits2_pos_bounds my) as [Hmy _].
  rewrite Hdy in Hmy. change (2 ^ (53 - 1))%Z with 4503599627370496%Z in Hmy.
  assert (Hmx' : (Zpos mx < 9007199254740992)%Z).
  { eapply Z.lt_le_trans; [exact Hmx|].
    change 9007199254740992%Z with (2 ^ 53)%Z.
    apply Z.pow_le_mono_r; lia. }
  assert (Hpow : (2 <= 2 ^ (ey - ex))%Z).
  { change 2%Z with (2 ^ 1)%Z at 1. apply Z.pow_le_mono_r; lia. }
  nia.
Qed.

Lemma aligned_eq (mx my : positive) (e : Z) :
  Zpos (fst (shl_align mx e (Z.min e e))) = Zpos mx /\
  Zpos (fst (shl_align my e (Z.min e e))) = Zpos my.
Proof.
  rewrite !shl_align_value by lia.
  replace (e - Z.min e e)%Z with 0%Z by lia. cbn. lia.
Qed.

(** The sign of a difference: when [a <= b] the float [a - b] is not
    greater than zero. *)
Lemma SFsub_not_positive (a b : spec_float) :
  valid_binary a = true -> valid_binary b = true ->
  SFleb a b = true ->
  SFltb (S754_zero false) (SF64sub a b) = false.
Proof.
  intros Va Vb Hle.
  destruct a as [sa|sa| |sa ma ea], b as [sb|sb| |sb mb eb];
    try discriminate Hle;
    try (destruct sa; try discriminate Hle);
    try (destruct sb; try discriminate Hle);
    try reflexivity.
  all: cbn [valid_binary] in Va, Vb.
  all: unfold SF64sub, SFsub; apply normalize_not_positive.
  all: unfold SFleb, SFcompare in Hle; cbn [cond_Zopp].
  - (* both negative *)
    destruct (Z.compare_spec ea eb) as [Heq|Hlt|Hgt].
    + subst eb. destruct (aligned_eq ma mb ea) as [-> ->].
      destruct (Pos.compare_cont Eq ma mb) eqn:E; try discriminate Hle.
      * apply Pos.compare_eq in E. subst. lia.
      * apply Pos.compare_gt_iff in E. lia.
    + discriminate Hle.
    + pose proof (aligned_lt mb ma eb ea Vb Va ltac:(lia)) as H.
      rewrite (Z.min_comm eb ea) in H. lia.
  - lia.
  - (* both positive *)
    destruct (Z.compare_spec ea eb) as [Heq|Hlt|Hgt].
    + subst eb. destruct (aligned_eq ma mb ea) as [-> ->].
      destruct (Pos.compare_cont Eq ma mb) eqn:E; try discriminate Hle.
      * apply Pos.compare_eq in E. subst. lia.
      * pose proof (proj1 (Pos.compare_lt_iff ma mb) E) as Hlt.
        change IntDef.Z.sub with Z.sub. lia.
    + pose proof (aligned_lt ma mb ea eb Va Vb Hlt) as H. lia.
    + discriminate Hle.
Qed.

Lemma sub_not_positive (x y : float) :
  (x <=? y) = true -> (0 <? x - y) = false.
Proof.
  rewrite leb_spec, ltb_spec, sub_spec. intros H.
  apply SFsub_not_positive; [apply Prim2SF_valid|apply Prim2SF_valid|exact H].
Qed.

Lemma Prim2SF_zero : Prim2SF 0 = S754_zero false.
Proof. reflexivity. Qed.

(** [max(0.0, x)] is zero, or [x] itself when [x] is a positive number or
    plus infinity; it is never a NaN and never negative. *)
Lemma float_max_0_cases (x : float) :
  (B64.float_max 0 x = 0 /\ (0 <? x) = false) \/
  (B64.float_max 0 x = x /\
   (Prim2SF x = S754_infinity false \/
    exists m e, Prim2SF x = S754_finite false m e)).
Proof.
  unfold B64.float_max. destruct (0 <? x) eqn:E; [right|left; now split].
  split; [reflexivity|].
  rewrite ltb_spec, Prim2SF_zero in E.
  destruct (Prim2SF x) as [s|s| |s m e]; try destruct s; try discriminate E.
  - now left.
  - right. now exists m, e.
Qed.

Lemma SF2Q_positive (m : positive) (e : Z) :
  (0 < B64.SF2Q (S754_finite false m e))%Q.
Proof.
  unfold B64.SF2Q. cbn [cond_Zopp].
  apply Qmult_lt_0_compat; [reflexivity|].
  apply Qpower_0_lt. reflexivity.
Qed.

Lemma Qceiling_nonneg (q : Q) : (0 <= q)%Q -> (0 <= Qceiling q)%Z.
Proof.
  intros H. change 0%Z with (Qceiling 0). now apply Qceiling_resp_le.
Qed.

Lemma Qceiling_bounds (q : Q) :
  (inject_Z (Qceiling q - 1) < q <= inject_Z (Qceiling q))%Q.
Proof. split; [apply Qceiling_lt|apply Qle_ceiling]. Qed.

Lemma ceil_finite (x : float) :
  B64.is_finite x = true -> B64.ceil x = B64.Ok (Qceiling (B64.to_Q x)).
Proof.
  unfold B64.is_finite, B64.ceil, B64.to_Q.
  destruct (Prim2SF x); try discriminate; reflexivity.
Qed.

Lemma ceil_not_finite (x : float) :
  B64.is_finite x = false -> Prim2SF x <> S754_nan ->
  B64.ceil x = B64.Raise B64.OverflowError.
Proof.
  unfold B64.is_finite, B64.ceil.
  destruct (Prim2SF x); try discriminate; try reflexivity.
  intros _ H. contradiction.
Qed.

(** The shortfall [max(0.0, target - net)]: never a NaN and never negative,
    and zero when the target is not above the net stock. *)
Lemma shortfall_cases (target net : float) :
  Prim2SF (B64.float_max 0 (target - net)) <> S754_nan /\
  (B64.is_finite (B64.float_max 0 (target - net)) = true ->
   (0 <= B64.to_Q (B64.float_max 0 (target - net)))%Q) /\
  ((target <=? net) = true -> B64.float_max 0 (target - net) = 0).
Proof.
  destruct (float_max_0_cases (target - net)) as [[-> Hnot]|[-> Hpos]].
  - split; [rewrite Prim2SF_zero; discriminate|].
    split; [intros _; unfold B64.to_Q; rewrite Prim2SF_zero; apply Qle_refl|].
    reflexivity.
  - split; [|split].
    + destruct Hpos as [->|[m [e ->]]]; discriminate.
    + intros _. unfold B64.to_Q.
      destruct Hpos as [->|[m [e ->]]]; [apply Qle_refl|].
      apply Qlt_le_weak, SF2Q_positive.
    + intros Hle. apply sub_not_positive in Hle.
      rewrite ltb_spec, Prim2SF_zero in Hle.
      destruct Hpos as [H|[m [e H]]]; rewrite H in Hle; discriminate Hle.
Qed.

Lemma getitem_contains (d : list (float * float)) (k : float) :
  B64.contains d k = true -> exists v, B64.getitem d k = B64.Ok v.
Proof.
  unfold B64.contains.
  induction d as [|[k' v] d IH]; cbn [existsb B64.getitem fst]; [discriminate|].
  destruct (k =? k'); [intros _; now exists v|exact IH].
Qed.

(** C2, as stated, fails on the code.  With 28 days of demand 20, a lead
    time of 5 days and the default agent the target stock is 240.  With
    0.9999999999999999 units on hand and nothing on order the shortfall is
    above 239 and rounds up to 240, but the float
    [240.0 - 0.9999999999999999] is 239.0, so [recommend] orders 239 units,
    less than the shortfall. *)
Lemma C2_order_below_exact_shortfall :
  exists d,
    B64.recommend B64.statistics_mean B64.statistics_pstdev B64.default_agent
                  (repeat 20 28) 0.9999999999999999 0 (Some [5]) = B64.Ok d /\
    B64.target_stock d = 240 /\
    B64.recommended_order_qty d = 239%Z /\
    B64.exact_order_quantity (B64.target_stock d) 0.9999999999999999 0
    = 240%Z /\
    (inject_Z (B64.recommended_order_qty d)
     < B64.to_Q (B64.target_stock d)
       - (B64.to_Q 0.9999999999999999 + B64.to_Q 0))%Q.
Proof.
  eexists. split; [vm_compute; reflexivity|].
  repeat split; vm_compute; reflexivity.
Qed.

(** C2, amended.  For every call on an agent whose service level is a key
    of the table: the target stock is the forecast times the protection days
    plus the safety stock, the net stock is the stock on hand plus the stock
    on order, both as the floats the code computes, and the recommended
    quantity is the float [max(0.0, target_stock - net_stock)] rounded up to
    a whole number, the least integer at or above that float.  It is a
    non-negative integer, and it is exactly 0 whenever the net stock is at
    or above the target stock.  The call fails only where Python does: with
    [OverflowError] when the review period is too large for a float or the
    difference is infinite. *)
Theorem C2_order_quantity_binary64 (mean pstdev : list float -> float)
    (agent : B64.RetailDecisionAgent) (history : list float)
    (on_hand on_order : float) (lth : option (list float)) :
  B64.contains B64.SERVICE_Z (B64.service_level agent) = true ->
  exists z,
    B64.getitem B64.SERVICE_Z (B64.service_level agent) = B64.Ok z /\
    match B64.of_int (B64.review_period_days agent) with
    | B64.Raise e =>
        B64.recommend mean pstdev agent history on_hand on_order lth
        = B64.Raise e
    | B64.Ok review_period =>
        let recent :=
          match history with
          | [] => []
          | _ => slice_from (- B64.demand_window agent)%Z history
          end in
        let forecast := B64._exp_smoothing_forecast agent recent in
        let lead_time :=
          B64.float_max 1 (mean match lth with
                                | None | Some [] => [7]
                                | Some observed => observed
                                end) in
        let safety := z * B64._recent_std pstdev recent * sqrt lead_time in
        let target := forecast * (lead_time + review_period) + safety in
        let net := on_hand + on_order in
        let shortfall := B64.float_max 0 (target - net) in
        (B64.is_finite shortfall = false ->
         B64.recommend mean pstdev agent history on_hand on_order lth
         = B64.Raise B64.OverflowError) /\
        (B64.is_finite shortfall = true ->
         exists d,
           B64.recommend mean pstdev agent history on_hand on_order lth
           = B64.Ok d /\
           B64.target_stock d = target /\
           (inject_Z (B64.recommended_order_qty d - 1) < B64.to_Q shortfall
            <= inject_Z (B64.recommended_order_qty d))%Q /\
           (0 <= B64.recommended_order_qty d)%Z) /\
        ((target <=? net) = true ->
         exists d,
           B64.recommend mean pstdev agent history on_hand on_order lth
           = B64.Ok d /\
           B64.target_stock d = target /\
           B64.recommended_order_qty d = 0%Z)
    end.
Proof.
  intros Hkey. destruct (getitem_contains _ _ Hkey) as [z Hz].
  exists z. split; [exact Hz|].
  unfold B64.recommend. rewrite Hz.
  destruct (B64.of_int (B64.review_period_days agent)) as [rp|e]; [|reflexivity].
  cbv zeta.
  set (target := (_ * (_ + rp) + _)%float).
  set (net := (on_hand + on_order)%float).
  destruct (shortfall_cases target net) as [Hnan [Hnonneg Hzero]].
  split; [|split].
  - intros Hinf. now rewrite (ceil_not_finite _ Hinf Hnan).
  - intros Hfin. rewrite (ceil_finite _ Hfin). eexists. split; [reflexivity|].
    cbn [B64.target_stock B64.recommended_order_qty].
    split; [reflexivity|]. split; [apply Qceiling_bounds|].
    apply Qceiling_nonneg, Hnonneg, Hfin.
  - intros Hle. rewrite (Hzero Hle). eexists. split; [reflexivity|].
    split; reflexivity.
Qed.

Lemma C2_order_quantity_binary64_witness :
  exists d,
    B64.recommend B64.statistics_mean B64.statistics_pstdev B64.default_agent
                  [20; 22; 19] 15 2.5 (Some [5]) = B64.Ok d /\
    (inject_Z (B64.recommended_order_qty d - 1)
     < B64.to_Q (B64.float_max 0 (B64.target_stock d - (15 + 2.5)))
     <= inject_Z (B64.recommended_order_qty d))%Q /\
    (0 <= B64.recommended_order_qty d)%Z.
Proof.
  destruct (C2_order_quantity_binary64 B64.statistics_mean B64.statistics_pstdev
              B64.default_agent [20; 22; 19] 15 2.5 (Some [5]) eq_refl)
    as [z [Hz H]].
  vm_compute in Hz. inversion Hz. subst z. clear Hz.
  change (B64.of_int (B64.review_period_days B64.default_agent))
    with (B64.Ok 7) in H.
  cbv zeta in H. destruct H as [_ [H _]].
  destruct H as [d [Hd [Htarget [Hceil Hpos]]]]; [vm_compute; reflexivity|].
  exists d. split; [exact Hd|]. rewrite Htarget. split; assumption.
Defined.

(** ** Where else the rounding shows

    Two more runs of the definitions of [B64] on ordinary inputs, where the
    floats leave the arithmetic they stand for. *)

(** The smoothed level of a constant series can leave the series: 28
    observations of 12.85 with the default factor 0.35 give a forecast of
    12.850000000000001. *)
Remark rounded_forecast_above_observations :
  B64._exp_smoothing_forecast B64.default_agent (repeat 12.85 28)
  = 12.850000000000001 /\
  (12.85 <? B64._exp_smoothing_forecast B64.default_agent (repeat 12.85 28))
  = true.
Proof. split; vm_compute; reflexivity. Qed.

(** A stock that covers the demand as numbers can fall short as floats: 2.0
    units cover the demands 0.1, 1.7 and 0.2, but [2.0 - 0.1 - 1.7] is
    0.19999999999999996, so the third day is a stockout. *)
Remark rounded_stock_records_a_stockout :
  (B64.to_Q 0.1 + B64.to_Q 1.7 + B64.to_Q 0.2 <= B64.to_Q 2)%Q /\
  exists shortage,
    fold_left (fun state demand => B64.consume demand state) [0.1; 1.7; 0.2]
              (2, 0%Z, 0)
    = (0, 1%Z, shortage) /\
    (0 <? shortage) = true.
Proof.
  split; [vm_compute; discriminate|].
  eexists. split; vm_compute; reflexivity.
Qed.

End Binary64Facts.
